(** * EmailNator client: a shallow embedding of [EmailNator.py]

    The development follows the source file top to bottom:
    - Python strings and the few [str] methods the client uses
      ([in], [split], [strip], [lower]);
    - the JSON values exchanged with the service and the Python
      operations applied to them ([dict.get], subscripting, iteration);
    - a state-and-exception monad for the client object: the session
      state, the remote service, and a trace of what was done;
    - the [error_handler] decorator, [_make_request], [_initialize_session]
      and the public methods of [EmailNatorClient];
    - the properties of the specification, stated on these definitions. *)

From Stdlib Require Import String Ascii.
From Stdlib Require Import List ZArith NArith Lia Bool.
Import ListNotations.

Set Implicit Arguments.

(* ================================================================== *)
(** * Python strings *)
(* ================================================================== *)

(** A Python [str] is a sequence of Unicode code points. *)
Definition pychar := N.
Definition pystr := list pychar.

(** String literals of the source (all of the ones needed are ASCII). *)
Definition py (s : string) : pystr :=
  map N_of_ascii (list_ascii_of_string s).

Fixpoint str_eqb (a b : pystr) : bool :=
  match a, b with
  | [], [] => true
  | x :: a', y :: b' => N.eqb x y && str_eqb a' b'
  | _, _ => false
  end.

(** [s.startswith(p)] *)
Fixpoint startswith (p s : pystr) : bool :=
  match p, s with
  | [], _ => true
  | _ :: _, [] => false
  | x :: p', y :: s' => N.eqb x y && startswith p' s'
  end.

(** [needle in hay] on two strings: substring test. *)
Fixpoint str_in (needle hay : pystr) : bool :=
  startswith needle hay ||
  match hay with
  | [] => false
  | _ :: t => str_in needle t
  end.

(** [s.split(sep, maxsplit)] for a non-empty separator: the string is
    scanned from the left, every occurrence of [sep] found closes the
    current piece and is skipped, at most [maxsplit] times ([None] is
    Python's default [-1], no limit).  [skip] counts the characters of
    an occurrence that remain to be skipped, [cur] is the current piece,
    reversed. *)
Fixpoint split_from (sep : pystr) (skip : nat) (budget : option nat)
         (cur : pystr) (s : pystr) : list pystr :=
  match s with
  | [] => [rev cur]
  | c :: s' =>
      match skip with
      | S k => split_from sep k budget cur s'
      | O =>
          let allowed := match budget with Some O => false | _ => true end in
          if allowed && startswith sep s
          then rev cur ::
               split_from sep (length sep - 1)
                          (match budget with Some b => Some (b - 1) | None => None end)
                          [] s'
          else split_from sep O budget (c :: cur) s'
      end
  end.

Definition split (sep : pystr) (maxsplit : option nat) (s : pystr) : list pystr :=
  split_from sep 0 maxsplit [] s.

(** [str.isspace] on one character, as CPython's [_PyUnicode_IsWhitespace]. *)
Definition isspace (c : pychar) : bool :=
  ((9 <=? c) && (c <=? 13) || (28 <=? c) && (c <=? 32) ||
   (c =? 133) || (c =? 160) || (c =? 5760) ||
   (8192 <=? c) && (c <=? 8202) ||
   (c =? 8232) || (c =? 8233) || (c =? 8239) || (c =? 8287) || (c =? 12288))%N.

Fixpoint lstrip (s : pystr) : pystr :=
  match s with
  | [] => []
  | c :: s' => if isspace c then lstrip s' else s
  end.

Definition rstrip (s : pystr) : pystr := rev (lstrip (rev s)).

(** [s.strip()] *)
Definition strip (s : pystr) : pystr := rstrip (lstrip s).

(** [s.lower()] restricted to the ASCII letters.  No other code point
    lower-cases to one of the letters of ["post"], so the comparison
    [method.lower() == 'post'] is not affected by the restriction. *)
Definition lower_char (c : pychar) : pychar :=
  if ((65 <=? c) && (c <=? 90))%N then (c + 32)%N else c.

Definition lower (s : pystr) : pystr := map lower_char s.

(* ================================================================== *)
(** * [_is_premium_email] *)
(* ================================================================== *)

(** [[part for sublist in parts_by_plus for part in sublist]] *)
Definition all_parts (email : pystr) : list pystr :=
  let parts_by_dot := split (py ".") None email in
  let parts_by_plus := map (split (py "+") None) parts_by_dot in
  concat parts_by_plus.

Definition _is_premium_email (email : pystr) (num : Z) : bool :=
  (Z.of_nat (length (all_parts email)) <=? num + 1)%Z.

(** The specification's reading of the same test: only the local-part
    of the address (the text before the first ["@"]) is split, on ["."]
    and then on ["+"]. *)
Definition spec_local_part (a : pystr) : pystr :=
  hd [] (split (py "@") None a).

Definition spec_local_segments (a : pystr) : nat :=
  length (concat (map (split (py "+") None) (split (py ".") None (spec_local_part a)))).

(** Number of separator characters (["."] or ["+"]) of a string. *)
Definition is_sep (c : pychar) : bool := (c =? 46)%N || (c =? 43)%N.

Definition separators (s : pystr) : nat := length (filter is_sep s).

(* ================================================================== *)
(** * Values, exceptions, results *)
(* ================================================================== *)

(** The values decoded from the JSON bodies of the service, which are
    also the Python values the client's methods return ([JNull] is
    [None], [JDict []] is [{}]).  Numbers are kept as integers. *)
#[local] Unset Elimination Schemes.
Inductive json : Type :=
| JNull
| JBool (b : bool)
| JNum (n : Z)
| JStr (s : pystr)
| JList (l : list json)
| JDict (kv : list (pystr * json)).
#[local] Set Elimination Schemes.

(** Exceptions.  Every one of them derives from Python's [Exception];
    [HTTPError] is [requests.HTTPError] and carries the status of its
    response and [str(e)]; [RequestError] stands for any other
    exception raised by the transport (connection errors, timeouts). *)
Inductive exn : Type :=
| HTTPError (status : Z) (msg : pystr)
| RequestError (msg : pystr)
| ValueError
| AttributeError
| IndexError
| KeyError
| TypeError.

Inductive res (A : Type) : Type :=
| Ret (a : A)
| Raise (e : exn).

Arguments Ret {A} a.
Arguments Raise {A} e.

Definition res_bind {A B} (r : res A) (k : A -> res B) : res B :=
  match r with
  | Ret a => k a
  | Raise e => Raise e
  end.

(** [bool(v)] *)
Definition truthy (v : json) : bool :=
  match v with
  | JNull => false
  | JBool b => b
  | JNum n => negb (n =? 0)%Z
  | JStr s => match s with [] => false | _ => true end
  | JList l => match l with [] => false | _ => true end
  | JDict kv => match kv with [] => false | _ => true end
  end.

(** [v == s] for a string literal [s]. *)
Definition eq_str (v : json) (s : pystr) : bool :=
  match v with
  | JStr x => str_eqb x s
  | _ => false
  end.

Fixpoint lookup {V} (k : pystr) (kv : list (pystr * V)) : option V :=
  match kv with
  | [] => None
  | (k', v) :: kv' => if str_eqb k k' then Some v else lookup k kv'
  end.

(** [v.get(k, default)]: only a dict has the method. *)
Definition dict_get (v : json) (k : pystr) (default : json) : res json :=
  match v with
  | JDict kv => Ret (match lookup k kv with Some x => x | None => default end)
  | _ => Raise AttributeError
  end.

(** [v[k]] for a string key [k]. *)
Definition getitem_str (v : json) (k : pystr) : res json :=
  match v with
  | JDict kv => match lookup k kv with Some x => Ret x | None => Raise KeyError end
  | _ => Raise TypeError
  end.

(** [v[0]]: the keys of a decoded JSON object are strings, so [0] is
    never one of them. *)
Definition getitem0 (v : json) : res json :=
  match v with
  | JList (x :: _) => Ret x
  | JList [] => Raise IndexError
  | JStr (c :: _) => Ret (JStr [c])
  | JStr [] => Raise IndexError
  | JDict _ => Raise KeyError
  | _ => Raise TypeError
  end.

(** The elements produced by [for x in v]. *)
Definition iterate (v : json) : res (list json) :=
  match v with
  | JList l => Ret l
  | JDict kv => Ret (map (fun p => JStr (fst p)) kv)
  | JStr s => Ret (map (fun c => JStr [c]) s)
  | _ => Raise TypeError
  end.

(** [needle in v] for a string [needle]. *)
Definition contains_str (needle : pystr) (v : json) : res bool :=
  match v with
  | JStr s => Ret (str_in needle s)
  | JList l => Ret (existsb (fun x => eq_str x needle) l)
  | JDict kv => Ret (existsb (fun p => str_eqb needle (fst p)) kv)
  | _ => Raise TypeError
  end.

(* ================================================================== *)
(** * The external collaborators *)
(* ================================================================== *)

Inductive verb : Type := GET | POST.

Record request : Type := {
  req_verb : verb;
  req_url : pystr;
  req_headers : list (pystr * option pystr);
  req_json : option json
}.

(** What the client reads of a [requests.Response]: [response.text] and
    [response.json()] ([None] when the body does not decode).  The
    client tests a response for truth only after [raise_for_status] has
    accepted it, where [bool(response)], which is [response.ok], is
    [True]: in [x if response else y] only [None] selects [y]. *)
Record response : Type := {
  resp_text : pystr;
  resp_json : option json
}.

(** The HTTP session and the remote service behind it.  [send] is
    [self.session.get] or [self.session.post] followed by
    [response.raise_for_status()]: it returns the response when the
    status is not an error, and the exception raised otherwise.
    [cookies_get_dict] is [self.session.cookies.get_dict()]. *)
Class Transport : Type := {
  server : Type;
  send : request -> server -> res response * server;
  cookies_get_dict : server -> list (pystr * pystr);
  unquote : pystr -> pystr
}.

(** The HTML parser: [BeautifulSoup(content, 'html.parser').find(id=i)],
    [t.find_all(name)], and the outcome of [t.next_sibling.strip()],
    which faults when [t] has no next sibling or one that is not text. *)
Class HtmlParser : Type := {
  tag : Type;
  soup_find_id : pystr -> pystr -> option tag;
  find_all : tag -> pystr -> list tag;
  next_sibling_strip : tag -> res pystr
}.

(* ================================================================== *)
(** * The client: state, trace and monad *)
(* ================================================================== *)

Inductive print_site : Type := Print419 | PrintHTTPError | PrintException.

Inductive level : Type := DEBUG | INFO | WARNING | ERROR.

Inductive log_msg : Type :=
| MsgSessionReady
| MsgSessionFailed (e : exn)
| MsgPremiumFound (email : json)
| MsgPremiumAttempt (attempt : Z)
| MsgPremiumExhausted (max_attempts : Z)
| MsgNewMail (subject : json)
| MsgNoNewMail.

(** What a run of the client does, in order: the requests handed to the
    transport, the lines printed and logged, and the executions of
    [_initialize_session], each with the events of its own body. *)
#[local] Unset Elimination Schemes.
Inductive event : Type :=
| EvRequest (r : request)
| EvInit (body : list event)
| EvPrint (p : print_site) (e : exn)
| EvLog (l : level) (m : log_msg).
#[local] Set Elimination Schemes.

Definition USER_AGENT : pystr :=
  py "Mozilla/5.0 (Windows NT 10.0; Win64; x64) AppleWebKit/537.36 (KHTML, like Gecko) Chrome/123.0.0.0 Safari/537.36".

Definition base_url : pystr := py "https://www.emailnator.com".

Definition divider : pystr := py "<hr /></div></div>".

Definition is_request (ev : event) : bool :=
  match ev with EvRequest _ => true | _ => false end.

Definition is_init (ev : event) : bool :=
  match ev with EvInit _ => true | _ => false end.

(** Attempts and session re-initializations made by a call itself. *)
Definition attempts (t : list event) : nat := length (filter is_request t).
Definition reinits (t : list event) : nat := length (filter is_init t).

(** All the executions of [_initialize_session] recorded in a trace,
    the ones started inside another one included. *)
Fixpoint event_reinits (ev : event) : nat :=
  match ev with
  | EvInit body =>
      S ((fix go (t : list event) : nat :=
            match t with
            | [] => 0
            | e :: t' => event_reinits e + go t'
            end) body)
  | _ => 0
  end.

Fixpoint all_reinits (t : list event) : nat :=
  match t with
  | [] => 0
  | e :: t' => event_reinits e + all_reinits t'
  end.

Section Client.

Context {T : Transport}.

(** The client object together with what it talks to: the session and
    the service behind it, [self.xsrf_token], and the trace so far. *)
Record world : Type := {
  srv : server;
  xsrf_token : option pystr;
  trace : list event
}.

Definition with_trace (w : world) (t : list event) : world :=
  {| srv := srv w; xsrf_token := xsrf_token w; trace := t |}.

(** A method of the client: from a state it returns normally or raises,
    in a new state.  [None] is a run that needs a deeper nesting of
    [_initialize_session] inside [_make_request] than its fuel allows. *)
Definition M (A : Type) : Type := world -> option (res A * world).

Definition ret {A} (a : A) : M A := fun w => Some (Ret a, w).

Definition bind {A B} (m : M A) (k : A -> M B) : M B :=
  fun w =>
    match m w with
    | None => None
    | Some (Ret a, w') => k a w'
    | Some (Raise e, w') => Some (Raise e, w')
    end.

Definition lift {A} (r : res A) : M A := fun w => Some (r, w).

(** [try: m  except Exception as e: handler(e)] *)
Definition try_except {A} (m : M A) (handler : exn -> M A) : M A :=
  fun w =>
    match m w with
    | Some (Raise e, w') => handler e w'
    | r => r
    end.

Definition out_of_fuel {A} : M A := fun _ => None.

Definition emit (ev : event) : M unit :=
  fun w => Some (Ret tt, with_trace w (trace w ++ [ev])).

Definition print (p : print_site) (e : exn) : M unit := emit (EvPrint p e).

Definition log (l : level) (m : log_msg) : M unit := emit (EvLog l m).

(** Runs [m] as the body of one [_initialize_session]: its events are
    recorded under a single [EvInit] event of the caller's trace. *)
Definition as_init {A} (m : M A) : M A :=
  fun w =>
    match m (with_trace w []) with
    | None => None
    | Some (r, w') => Some (r, with_trace w' (trace w ++ [EvInit (trace w')]))
    end.

End Client.

Notation "x <- m ;; k" := (bind m (fun x => k))
  (at level 61, m at next level, right associativity).
Notation "m ;; k" := (bind m (fun _ => k))
  (at level 61, right associativity).

(* ================================================================== *)
(** * [error_handler] *)
(* ================================================================== *)

(** How one iteration of the retry loop ends. *)
Inductive control (A : Type) : Type :=
| Return (a : A)
| Continue
| Break.

Arguments Return {A} a.
Arguments Continue {A}.
Arguments Break {A}.

Section ErrorHandler.

Context {T : Transport}.
Variable A : Type.

(** [self._initialize_session] and the decorated function applied to
    its arguments. *)
Variable _initialize_session : M unit.
Variable func : M A.

(** The body of the [for] loop. *)
Definition attempt : M (control A) :=
  try_except
    (r <- func ;; ret (Return r))
    (fun e =>
       match e with
       | HTTPError _ msg =>
           if str_in (py "419") msg
           then print Print419 e ;; _initialize_session ;; ret Continue
           else print PrintHTTPError e ;; ret Break
       | _ => print PrintException e ;; ret Break
       end).

(** [for retry_count in range(n): ...] followed by [return None]. *)
Fixpoint wrapper_loop (n : nat) : M (option A) :=
  match n with
  | O => ret None
  | S n' =>
      c <- attempt ;;
      match c with
      | Return r => ret (Some r)
      | Continue => wrapper_loop n'
      | Break => ret None
      end
  end.

End ErrorHandler.

(** [error_handler(max_retries)(func)], on an object whose
    [_initialize_session] method is given. *)
Definition error_handler {T : Transport} {A : Type} (max_retries : Z)
           (_initialize_session : M unit) (func : M A) : M (option A) :=
  wrapper_loop _initialize_session func (Z.to_nat max_retries).

(* ================================================================== *)
(** * [EmailNatorClient] *)
(* ================================================================== *)

Section EmailNatorClient.

Context {T : Transport} {H : HtmlParser}.

Definition _update_xsrf_token (cookies : list (pystr * pystr)) : M unit :=
  fun w =>
    let token :=
      unquote (match lookup (py "XSRF-TOKEN") cookies with
               | Some v => v
               | None => []
               end) in
    Some (Ret tt, {| srv := srv w; xsrf_token := Some token; trace := trace w |}).

(** [self.session.get(...)] or [self.session.post(...)], then
    [response.raise_for_status()]. *)
Definition session_send (r : request) : M response :=
  fun w =>
    let (out, s') := send r (srv w) in
    Some (out, {| srv := s'; xsrf_token := xsrf_token w;
                  trace := trace w ++ [EvRequest r] |}).

Definition session_cookies : M (list (pystr * pystr)) :=
  fun w => Some (Ret (cookies_get_dict (srv w)), w).

Definition get_token : M (option pystr) :=
  fun w => Some (Ret (xsrf_token w), w).

Definition headers (token : option pystr) : list (pystr * option pystr) :=
  [ (py "User-Agent", Some USER_AGENT);
    (py "Accept-Encoding", Some (py "gzip, deflate"));
    (py "Accept-Language", Some (py "zh-CN,zh;q=0.9"));
    (py "X-Xsrf-Token", token) ].

Definition post_headers : list (pystr * option pystr) :=
  [ (py "Content-Type", Some (py "application/json"));
    (py "Accept", Some (py "application/json, text/plain, */*"));
    (py "X-Requested-With", Some (py "XMLHttpRequest")) ].

Definition get_headers : list (pystr * option pystr) :=
  [ (py "Accept",
     Some (py "text/html,application/xhtml+xml,application/xml;q=0.9,image/avif,image/webp,image/apng,*/*;q=0.8")) ].

(** The request an attempt hands to the transport. *)
Definition request_of (method url : pystr) (data : option json)
           (token : option pystr) : request :=
  if str_eqb (lower method) (py "post")
  then {| req_verb := POST; req_url := url;
          req_headers := headers token ++ post_headers; req_json := data |}
  else {| req_verb := GET; req_url := url;
          req_headers := headers token ++ get_headers; req_json := None |}.

(** The body of [_make_request], before decoration. *)
Definition _make_request_body (method url : pystr) (data : option json) : M response :=
  token <- get_token ;;
  response <- session_send (request_of method url data token) ;;
  cookies <- session_cookies ;;
  _update_xsrf_token cookies ;;
  ret response.

(** [_initialize_session], given the method [self._make_request]. *)
Definition _initialize_session_with
           (make_request : pystr -> pystr -> option json -> M (option response))
  : M unit :=
  as_init
    (try_except
       (make_request (py "get") base_url None ;;
        log INFO MsgSessionReady)
       (fun e => log ERROR (MsgSessionFailed e))).

(** [_make_request] is decorated with [@error_handler(max_retries=3)],
    and [_initialize_session] calls the decorated method: the two are
    mutually recursive, and [fuel] bounds the depth of that recursion. *)
Fixpoint _make_request (fuel : nat) (method url : pystr) (data : option json)
  : M (option response) :=
  match fuel with
  | O => out_of_fuel
  | S fuel' =>
      error_handler 3 (_initialize_session_with (_make_request fuel'))
                    (_make_request_body method url data)
  end.

Definition _initialize_session (fuel : nat) : M unit :=
  _initialize_session_with (_make_request fuel).

(** [EmailNatorClient()]: a fresh client on a service in state [s]. *)
Definition new_client (fuel : nat) (s : server) : option (res unit * world) :=
  _initialize_session fuel {| srv := s; xsrf_token := None; trace := [] |}.

Definition generate_email (fuel : nat) (email_types : list pystr) : M json :=
  let url := base_url ++ py "/generate-email" in
  let data := JDict [(py "email", JList (map JStr email_types))] in
  response <- _make_request fuel (py "post") url (Some data) ;;
  match response with
  | Some r =>
      lift (res_bind (match resp_json r with Some j => Ret j | None => Raise ValueError end)
             (fun j => res_bind (dict_get j (py "email") (JList [JNull])) getitem0))
  | None => ret JNull
  end.

(** [self._is_premium_email(email, num)] on a value: only a string has
    the method [split]. *)
Definition is_premium_value (email : json) (num : Z) : res bool :=
  match email with
  | JStr s => Ret (_is_premium_email s num)
  | _ => Raise AttributeError
  end.

(** The [for attempt in range(1, max_attempts + 1)] loop of
    [generate_premium_email], [n] iterations from [attempt] on;
    [Some email] is an early [return email]. *)
Fixpoint premium_loop (fuel : nat) (n : nat) (attempt : Z) (num : Z)
         (email_type : list pystr) : M (option json) :=
  match n with
  | O => ret None
  | S n' =>
      email <- generate_email fuel email_type ;;
      ok <- (if truthy email then lift (is_premium_value email num) else ret false) ;;
      if ok
      then log INFO (MsgPremiumFound email) ;; ret (Some email)
      else log DEBUG (MsgPremiumAttempt attempt) ;;
           premium_loop fuel n' (attempt + 1) num email_type
  end.

Definition generate_premium_email (fuel : nat) (max_attempts : Z) (num : Z)
           (email_type : list pystr) : M json :=
  found <- premium_loop fuel (Z.to_nat max_attempts) 1 num email_type ;;
  match found with
  | Some email => ret email
  | None => log WARNING (MsgPremiumExhausted max_attempts) ;; ret JNull
  end.

(** [[msg for msg in items if "@" in msg["from"]]] *)
Fixpoint filter_from (items : list json) : res (list json) :=
  match items with
  | [] => Ret []
  | msg :: rest =>
      res_bind (getitem_str msg (py "from")) (fun sender =>
      res_bind (contains_str (py "@") sender) (fun keep =>
      res_bind (filter_from rest) (fun kept =>
      Ret (if keep then msg :: kept else kept))))
  end.

Definition get_message_list (fuel : nat) (email : pystr) : M (list json) :=
  let url := base_url ++ py "/message-list" in
  let data := JDict [(py "email", JStr email)] in
  response <- _make_request fuel (py "post") url (Some data) ;;
  match response with
  | Some r =>
      lift (res_bind (match resp_json r with Some j => Ret j | None => Raise ValueError end)
             (fun j => res_bind (dict_get j (py "messageData") (JList []))
             (fun v => res_bind (iterate v) filter_from)))
  | None => ret []
  end.




(** [header.find_all('b')[i].next_sibling.strip()] *)
Definition label_text (header : option tag) (i : nat) : res pystr :=
  match header with
  | None => Raise AttributeError
  | Some h =>
      match nth_error (find_all h (py "b")) i with
      | None => Raise IndexError
      | Some b => next_sibling_strip b
      end
  end.

Definition body_of (content : pystr) : pystr :=
  if str_in divider content
  then strip (last (split divider (Some 1) content) [])
  else [].

Definition _parse_email_content (content : pystr) : res json :=
  let header := soup_find_id content (py "subject-header") in
  res_bind (label_text header 0) (fun sender =>
  res_bind (label_text header 1) (fun subject =>
  res_bind (label_text header 2) (fun time =>
  Ret (JDict [ (py "from", JStr sender);
               (py "subject", JStr subject);
               (py "time", JStr time);
               (py "body", JStr (body_of content)) ])))).

Definition get_email_content (fuel : nat) (email message_id : pystr) : M json :=
  let url := base_url ++ py "/message-list" in
  let data := JDict [(py "email", JStr email); (py "messageID", JStr message_id)] in
  response <- _make_request fuel (py "post") url (Some data) ;;
  match response with
  | Some r => lift (_parse_email_content (resp_text r))
  | None => ret (JDict [])
  end.

End EmailNatorClient.

(* ================================================================== *)
(** * Predicates used in the statements *)
(* ================================================================== *)

(** [sep] occurs in [s] right after [pre], and nowhere earlier. *)
Definition first_occurrence (sep s pre post : pystr) : Prop :=
  s = pre ++ sep ++ post /\
  forall pre' post', s = pre' ++ sep ++ post' -> length pre <= length pre'.

Definition no_space_at_ends (b : pystr) : Prop :=
  (forall c t, b = c :: t -> isspace c = false) /\
  (forall c t, b = t ++ [c] -> isspace c = false).

(** [b] is [s] trimmed of its surrounding whitespace. *)
Definition trimmed_of (s b : pystr) : Prop :=
  exists l r, s = l ++ b ++ r /\
              forallb isspace l = true /\ forallb isspace r = true /\
              no_space_at_ends b.

(** The errors after which the retry loop re-initializes the session
    and goes on: an [HTTPError] whose string contains ["419"].  After
    any other exception the loop is abandoned. *)
Definition retryable (e : exn) : bool :=
  match e with
  | HTTPError _ msg => str_in (py "419") msg
  | _ => false
  end.

Definition site_of (e : exn) : print_site :=
  match e with
  | HTTPError _ _ => PrintHTTPError
  | _ => PrintException
  end.

(** A message summary as the list response of the service has them: an
    object with a [from] field holding a string. *)
Definition sender_of (msg : json) : option pystr :=
  match msg with
  | JDict kv => match lookup (py "from") kv with
                | Some (JStr s) => Some s
                | _ => None
                end
  | _ => None
  end.

Definition has_at (msg : json) : bool :=
  match sender_of msg with
  | Some s => str_in (py "@") s
  | None => false
  end.

(** [["@" in msg["from"]]] evaluates to [True]. *)
Definition kept (msg : json) : bool :=
  match res_bind (getitem_str msg (py "from")) (contains_str (py "@")) with
  | Ret b => b
  | Raise _ => false
  end.

(** [["@" in msg["from"]]] cannot be evaluated: the entry is not an
    object, has no [from], or has one that is neither a string, a list
    nor an object. *)
Definition unreadable (msg : json) : bool :=
  match res_bind (getitem_str msg (py "from")) (contains_str (py "@")) with
  | Ret _ => false
  | Raise _ => true
  end.


(** The state after a line is printed or logged. *)
Definition printed {T : Transport} (p : print_site) (e : exn) (w : world) : world :=
  with_trace w (trace w ++ [EvPrint p e]).

Definition logged {T : Transport} (l : level) (m : log_msg) (w : world) : world :=
  with_trace w (trace w ++ [EvLog l m]).

(* ================================================================== *)
(** * Concrete collaborators, for the examples *)
(* ================================================================== *)

(** A service that answers from a script, one outcome per request, and
    refuses the connection once the script is exhausted. *)
Definition scripted : Transport := {|
  server := list (res response);
  send := fun _ s =>
            match s with
            | [] => (Raise (RequestError (py "connection refused")), [])
            | out :: s' => (out, s')
            end;
  cookies_get_dict := fun _ => [(py "XSRF-TOKEN", py "tok")];
  unquote := fun s => s
|}.

Inductive toy_tag : Type :=
| Header (labels : list pystr)
| Bold (following : pystr).

(** A parser that finds a subject header, with the given label texts,
    in the documents that mention one. *)
Definition toy_parser (labels : list pystr) : HtmlParser := {|
  tag := toy_tag;
  soup_find_id := fun content _ =>
                    if str_in (py "subject-header") content
                    then Some (Header labels) else None;
  find_all := fun t _ => match t with
                         | Header ls => map Bold ls
                         | Bold _ => []
                         end;
  next_sibling_strip := fun t => match t with
                                 | Bold s => Ret (strip s)
                                 | Header _ => Raise AttributeError
                                 end
|}.

Definition start (s : list (res response)) : @world scripted :=
  {| srv := (s : @server scripted); xsrf_token := None; trace := [] |}.

Definition text_response (s : string) : response :=
  {| resp_text := py s; resp_json := None |}.

Definition json_response (j : json) : response :=
  {| resp_text := []; resp_json := Some j |}.

Definition error_419 : exn :=
  HTTPError 419 (py "419 Client Error: unknown status for url: https://www.emailnator.com/message-list").

Definition error_419_home : exn :=
  HTTPError 419 (py "419 Client Error: unknown status for url: https://www.emailnator.com/").

Definition error_500 : exn :=
  HTTPError 500 (py "500 Server Error: Internal Server Error for url: https://www.emailnator.com/message-list").

Definition error_500_mentioning_419 : exn :=
  HTTPError 500 (py "500 Server Error: upstream code 419 for url: https://www.emailnator.com/message-list").

Definition error_419_unmarked : exn :=
  HTTPError 419 (py "Page Expired").

Definition list_url : pystr := base_url ++ py "/message-list".

Definition summary (sender time : string) : json :=
  JDict [(py "messageID", JStr (py "id")); (py "from", JStr (py sender));
         (py "subject", JStr (py "hello")); (py "time", JStr (py time))].

Definition list_response (entries : list json) : response :=
  json_response (JDict [(py "messageData", JList entries)]).

(** An entry without a [from]. *)
Definition anonymous_entry : json :=
  JDict [(py "subject", JStr (py "hello")); (py "time", JStr (py "Just Now"))].


(* ================================================================== *)
(** * Properties *)
(* ================================================================== *)

(** ** Strings *)

Definition count (c : pychar) (s : pystr) : nat := length (filter (N.eqb c) s).

Ltac count_events := unfold attempts, reinits; simpl; lia.

(** The token held by the cookies of the session:
    [unquote(cookies.get('XSRF-TOKEN', ''))]. *)
Definition cookie_token {T : Transport} (s : server) : pystr :=
  unquote (match lookup (py "XSRF-TOKEN") (cookies_get_dict s) with
           | Some v => v
           | None => []
           end).

(** A request event is an attempt of the call [(method, url, data)]. *)
Definition attempt_of (method url : pystr) (data : option json) (ev : event) : Prop :=
  match ev with
  | EvRequest r => exists token, r = request_of method url data token
  | _ => True
  end.

(** The four keys of a message content record. *)
Definition content_record (sender subject time body : pystr) : json :=
  JDict [ (py "from", JStr sender); (py "subject", JStr subject);
          (py "time", JStr time); (py "body", JStr body) ].

Definition generate_url : pystr := base_url ++ py "/generate-email".

Definition generate_data (email_types : list pystr) : json :=
  JDict [(py "email", JList (map JStr email_types))].

Definition address_response (addresses : list json) : response :=
  json_response (JDict [(py "email", JList addresses)]).

Example all_parts_example :
  all_parts (py "a.b+c@gmail.com") = [py "a"; py "b"; py "c@gmail"; py "com"].
Proof. reflexivity. Qed.

Example split_example : split (py "ab") None (py "xabyabab") = [py "x"; py "y"; []; []].
Proof. reflexivity. Qed.

Example split_once_example :
  split (py "ab") (Some 1) (py "xabyabab") = [py "x"; py "yabab"].
Proof. reflexivity. Qed.

Example split_overlap_example : split (py "aa") None (py "aaa") = [[]; py "a"].
Proof. reflexivity. Qed.

Example strip_example : strip (py "  Hello  ") = py "Hello".
Proof. reflexivity. Qed.

Example request_of_example :
  req_verb (request_of (py "POST") base_url None None) = POST /\
  req_verb (request_of (py "put") base_url None None) = GET.
Proof. split; reflexivity. Qed.

Lemma count_rev c s : count c (rev s) = count c s.
Proof. unfold count. rewrite filter_rev, length_rev. reflexivity. Qed.

Lemma count_cons c x s :
  count c (x :: s) = (if N.eqb c x then 1 else 0) + count c s.
Proof. unfold count; simpl. destruct (N.eqb c x); reflexivity. Qed.

Lemma split_char_cons c x s cur :
  split_from [c] 0 None cur (x :: s) =
  if N.eqb c x then rev cur :: split_from [c] 0 None [] s
  else split_from [c] 0 None (x :: cur) s.
Proof. simpl. rewrite andb_true_r. reflexivity. Qed.

Lemma split_char_length c : forall s cur,
  length (split_from [c] 0 None cur s) = S (count c s).
Proof.
  induction s as [|x s IH]; intros cur.
  - reflexivity.
  - rewrite split_char_cons, count_cons.
    destruct (N.eqb c x); simpl; rewrite IH; reflexivity.
Qed.

Lemma split_split_length c d (Hcd : c <> d) : forall s cur,
  length (concat (map (split [d] None) (split_from [c] 0 None cur s)))
  = S (count d cur + (count c s + count d s)).
Proof.
  induction s as [|x s IH]; intros cur.
  - simpl. rewrite app_nil_r. unfold split.
    rewrite split_char_length, count_rev. unfold count; simpl. lia.
  - rewrite split_char_cons, !count_cons.
    destruct (N.eqb c x) eqn:E.
    + apply N.eqb_eq in E. subst x.
      assert (N.eqb d c = false) as -> by (apply N.eqb_neq; congruence).
      simpl map. simpl concat. rewrite length_app, IH. unfold split at 1.
      rewrite split_char_length, count_rev. unfold count at 2. simpl. lia.
    + rewrite IH, count_cons. lia.
Qed.

Lemma separators_count s : separators s = count 46%N s + count 43%N s.
Proof.
  induction s as [|x s IH]; [reflexivity|].
  rewrite !count_cons. unfold separators in *. cbn [filter]. unfold is_sep at 1.
  rewrite (N.eqb_sym x 46), (N.eqb_sym x 43).
  destruct (N.eqb 46 x) eqn:E1; destruct (N.eqb 43 x) eqn:E2; cbn [orb length]; try lia.
  apply N.eqb_eq in E1. apply N.eqb_eq in E2. subst. discriminate E2.
Qed.

Lemma all_parts_length s : length (all_parts s) = S (separators s).
Proof.
  unfold all_parts, split at 2. change (py ".") with [46%N]. change (py "+") with [43%N].
  rewrite split_split_length by discriminate. rewrite separators_count. reflexivity.
Qed.

Lemma separators_app a b : separators (a ++ b) = separators a + separators b.
Proof. unfold separators. rewrite filter_app, length_app. reflexivity. Qed.

(** ** C1: what [_is_premium_email] counts *)

(** C1, as stated, fails: the address ["a.b+c@gmail.com"] has three
    local-part segments, which is at most [2 + 1], and yet
    [_is_premium_email] rejects it for [num = 2]. *)
Lemma is_premium_email_local_part_counterexample :
  ~ (_is_premium_email (py "a.b+c@gmail.com") 2 = true <->
     (Z.of_nat (spec_local_segments (py "a.b+c@gmail.com")) <= 2 + 1)%Z).
Proof.
  intros [_ Hback].
  assert (Hfalse : _is_premium_email (py "a.b+c@gmail.com") 2 = false) by reflexivity.
  rewrite Hback in Hfalse; [discriminate|].
  vm_compute. discriminate.
Qed.

(** C1, amended: [_is_premium_email] splits the whole address, domain
    included.  The number of segments is one more than the number of
    ["."] and ["+"] characters of the address, the test holds exactly
    when that number is at most [num + 1], and for [local@domain] the
    segments are those of the local-part plus one per ["."] or ["+"] of
    the domain.  So ["a.b+c@gmail.com"] (four segments) is rejected for
    [num = 2], ["a.b@gmail.com"] is accepted and ["a.b.c+d@gmail.com"]
    is rejected. *)
Theorem is_premium_email_whole_address :
  (forall email num,
      length (all_parts email) = S (separators email) /\
      (_is_premium_email email num = true <->
       (Z.of_nat (length (all_parts email)) <= num + 1)%Z)) /\
  (forall local domain,
      length (all_parts (local ++ py "@" ++ domain))
      = length (all_parts local) + separators domain) /\
  _is_premium_email (py "a.b+c@gmail.com") 2 = false /\
  _is_premium_email (py "a.b@gmail.com") 2 = true /\
  _is_premium_email (py "a.b.c+d@gmail.com") 2 = false.
Proof.
  split; [|split; [|repeat split]].
  - intros email num. split.
    + apply all_parts_length.
    + unfold _is_premium_email. apply Z.leb_le.
  - intros local domain.
    rewrite !all_parts_length, !separators_app. simpl. lia.
Qed.

(** ** String search, splitting and trimming *)

Lemma startswith_spec p : forall s,
  startswith p s = true <-> exists post, s = p ++ post.
Proof.
  induction p as [|x p IH]; intros s; simpl.
  - split; [intros _; exists s; reflexivity | reflexivity].
  - destruct s as [|y s].
    + split; [discriminate | intros [post Hp]; discriminate].
    + rewrite andb_true_iff, N.eqb_eq, IH. split.
      * intros [-> [post ->]]. exists post. reflexivity.
      * intros [post Hp]. injection Hp as -> ->. split; [reflexivity | exists post; reflexivity].
Qed.

Lemma str_in_spec sep : forall s,
  str_in sep s = true <-> exists pre post, s = pre ++ sep ++ post.
Proof.
  induction s as [|y s IH].
  - simpl. rewrite orb_false_r, startswith_spec. split.
    + intros [post Hp]. exists [], post. exact Hp.
    + intros [pre [post Hp]]. destruct pre; [exists post; exact Hp|discriminate].
  - simpl. rewrite orb_true_iff, startswith_spec, IH. split.
    + intros [[post Hp] | [pre [post Hp]]].
      * exists [], post. exact Hp.
      * exists (y :: pre), post. simpl. rewrite Hp. reflexivity.
    + intros [pre [post Hp]]. destruct pre as [|z pre].
      * left. exists post. exact Hp.
      * right. injection Hp as -> ->. exists pre, post. reflexivity.
Qed.

(** Once the budget of splits is used up, the rest stays in one piece. *)
Lemma split_from_exhausted sep : forall s cur,
  split_from sep 0 (Some 0) cur s = [rev cur ++ s].
Proof.
  induction s as [|x s IH]; intros cur; simpl.
  - rewrite app_nil_r. reflexivity.
  - rewrite IH. simpl. rewrite <- app_assoc. reflexivity.
Qed.

Lemma split_from_skip sep budget : forall l cur s,
  split_from sep (length l) budget cur (l ++ s) = split_from sep 0 budget cur s.
Proof.
  induction l as [|x l IH]; intros cur s; simpl.
  - destruct s; reflexivity.
  - apply IH.
Qed.

Lemma first_occurrence_cons sep x pre post :
  first_occurrence sep (x :: pre ++ sep ++ post) (x :: pre) post ->
  startswith sep (x :: pre ++ sep ++ post) = false /\
  first_occurrence sep (pre ++ sep ++ post) pre post.
Proof.
  intros [_ Hmin]. split.
  - destruct (startswith sep (x :: pre ++ sep ++ post)) eqn:E; [|reflexivity].
    apply startswith_spec in E. destruct E as [post' Hp].
    specialize (Hmin [] post' Hp). simpl in Hmin. lia.
  - split; [reflexivity|].
    intros pre' post' Hp.
    specialize (Hmin (x :: pre') post'). simpl in Hmin.
    rewrite Hp in Hmin. specialize (Hmin eq_refl). lia.
Qed.

(** [s.split(sep, 1)] cuts [s] at the first occurrence of [sep]. *)
Lemma split_once_first sep (Hsep : sep <> []) : forall pre cur post,
  first_occurrence sep (pre ++ sep ++ post) pre post ->
  split_from sep 0 (Some 1) cur (pre ++ sep ++ post) = [rev cur ++ pre; post].
Proof.
  induction pre as [|x pre IH]; intros cur post Hfirst.
  - destruct sep as [|c sep]; [contradiction|].
    simpl app. rewrite app_nil_r.
    assert (Hs : startswith (c :: sep) (c :: sep ++ post) = true)
      by (apply startswith_spec; exists post; reflexivity).
    cbn [split_from]. rewrite Hs. cbn [andb length Nat.sub].
    rewrite Nat.sub_0_r, split_from_skip, split_from_exhausted. reflexivity.
  - apply first_occurrence_cons in Hfirst. destruct Hfirst as [Hno Hrest].
    change ((x :: pre) ++ sep ++ post) with (x :: pre ++ sep ++ post).
    cbn [split_from]. rewrite Hno. cbn [andb].
    rewrite IH by exact Hrest. simpl. rewrite <- app_assoc. reflexivity.
Qed.

Lemma lstrip_spec : forall s,
  exists l, s = l ++ lstrip s /\ forallb isspace l = true /\
            forall c t, lstrip s = c :: t -> isspace c = false.
Proof.
  induction s as [|x s IH].
  - exists []. repeat split. discriminate.
  - simpl. destruct (isspace x) eqn:E.
    + destruct IH as [l [Hs [Hl Hhd]]].
      exists (x :: l). simpl. rewrite E, Hl. repeat split; [congruence | exact Hhd].
    + exists []. repeat split. intros c t Hc. injection Hc as <- _. exact E.
Qed.

Lemma strip_spec s : trimmed_of s (strip s).
Proof.
  destruct (lstrip_spec s) as [l [Hs [Hl Hhd]]].
  destruct (lstrip_spec (rev (lstrip s))) as [r [Hr [Hrs Hlast]]].
  assert (Hcut : lstrip s = strip s ++ rev r).
  { unfold strip, rstrip. rewrite <- rev_app_distr, <- Hr, rev_involutive. reflexivity. }
  assert (Hrev : forallb isspace (rev r) = true).
  { rewrite forallb_forall in *. intros c Hc. apply Hrs, in_rev, Hc. }
  exists l, (rev r). repeat split.
  - rewrite <- Hcut. exact Hs.
  - exact Hl.
  - exact Hrev.
  - intros c t Hb. rewrite Hb in Hcut. simpl in Hcut. exact (Hhd _ _ Hcut).
  - intros c t Hb. unfold strip, rstrip in Hb.
    apply (f_equal (@rev pychar)) in Hb. rewrite rev_involutive, rev_app_distr in Hb.
    simpl in Hb. exact (Hlast _ _ Hb).
Qed.

(** ** The retry loop, for any decorated function *)

Lemma all_reinits_app a b : all_reinits (a ++ b) = all_reinits a + all_reinits b.
Proof. induction a as [|e a IH]; simpl; [reflexivity | rewrite IH; lia]. Qed.

Lemma event_reinits_init body : event_reinits (EvInit body) = S (all_reinits body).
Proof.
  reflexivity.
Qed.

Lemma attempts_app a b : attempts (a ++ b) = attempts a + attempts b.
Proof. unfold attempts. rewrite filter_app, length_app. reflexivity. Qed.

Lemma reinits_app a b : reinits (a ++ b) = reinits a + reinits b.
Proof. unfold reinits. rewrite filter_app, length_app. reflexivity. Qed.

Section RetryLoop.

Context {T : Transport}.
Variable A : Type.
Variable init : M unit.
Variable func : M A.

(** One iteration: a result is returned, a retryable error is printed
    and followed by a re-initialization and the rest of the loop, any
    other error is printed and ends the loop with [None]. *)
Lemma wrapper_loop_step n w :
  wrapper_loop init func (S n) w =
  match func w with
  | None => None
  | Some (Ret r, w1) => Some (Ret (Some r), w1)
  | Some (Raise e, w1) =>
      if retryable e
      then (init ;; wrapper_loop init func n) (printed Print419 e w1)
      else Some (Ret None, printed (site_of e) e w1)
  end.
Proof.
  cbn [wrapper_loop]. unfold attempt, bind at 1, try_except, bind at 1.
  destruct (func w) as [[[r|e] w1]|]; [reflexivity| |reflexivity].
  destruct e as [st msg| | | | | |]; cbn [retryable site_of]; try reflexivity.
  destruct (str_in (py "419") msg); [|reflexivity].
  unfold bind, print, emit, printed, ret.
  destruct (init _) as [[[[]|e] w2]|]; reflexivity.
Qed.

Hypothesis func_trace : forall w out w1,
  func w = Some (out, w1) -> exists r, trace w1 = trace w ++ [EvRequest r].

Hypothesis init_trace : forall w out w1,
  init w = Some (out, w1) ->
  out = Ret tt /\ exists body, trace w1 = trace w ++ [EvInit body].

(** A completed run of the loop never raises, makes at most [n]
    attempts and at most [n] re-initializations of its own, and a
    response it returns is the one of its last attempt. *)
Lemma wrapper_loop_run : forall n w out w',
  wrapper_loop init func n w = Some (out, w') ->
  (out = Ret None \/
   exists r w0, out = Ret (Some r) /\ func w0 = Some (Ret r, w')) /\
  exists t, trace w' = trace w ++ t /\ attempts t <= n /\ reinits t <= n.
Proof.
  induction n as [|n IH]; intros w out w' Hrun.
  - injection Hrun as <- <-. split; [left; reflexivity|].
    exists []. rewrite app_nil_r. repeat split; apply Nat.le_0_l.
  - rewrite wrapper_loop_step in Hrun.
    destruct (func w) as [[[r|e] w1]|] eqn:Hf; [| |discriminate].
    + injection Hrun as <- <-. split; [right; exists r, w; split; [reflexivity|exact Hf]|].
      destruct (func_trace Hf) as [rq Ht]. exists [EvRequest rq].
      repeat split; [exact Ht | count_events | count_events].
    + destruct (func_trace Hf) as [rq Ht].
      destruct (retryable e).
      * unfold bind in Hrun.
        destruct (init (printed Print419 e w1)) as [[oi w2]|] eqn:Hi; [|discriminate].
        destruct (init_trace Hi) as [-> [body Hb]].
        destruct (IH _ _ _ Hrun) as [Hout [t [Ht' [Ha Hr]]]].
        split; [exact Hout|].
        exists ([EvRequest rq; EvPrint Print419 e; EvInit body] ++ t).
        split; [|split].
        -- rewrite Ht', Hb. unfold printed; simpl. rewrite Ht.
           rewrite <- !app_assoc. reflexivity.
        -- rewrite attempts_app. change (attempts [EvRequest rq; EvPrint Print419 e; EvInit body]) with 1. lia.
        -- rewrite reinits_app. change (reinits [EvRequest rq; EvPrint Print419 e; EvInit body]) with 1. lia.
      * injection Hrun as <- <-. split; [left; reflexivity|].
        exists [EvRequest rq; EvPrint (site_of e) e].
        split; [|split].
        -- unfold printed; simpl. rewrite Ht, <- app_assoc. reflexivity.
        -- destruct e; count_events.
        -- destruct e; count_events.
Qed.

End RetryLoop.

(** ** [_make_request] and [_initialize_session] *)

Section MakeRequest.

Context {T : Transport}.

(** One attempt hands exactly one request to the transport; the token
    is refreshed from the cookies only when the attempt succeeds. *)
Lemma make_request_body_run method url data w :
  _make_request_body method url data w =
  let r := request_of method url data (xsrf_token w) in
  Some
    (match send r (srv w) with
     | (Ret resp, s') =>
         (Ret resp,
          {| srv := s';
             xsrf_token :=
               Some (unquote (match lookup (py "XSRF-TOKEN") (cookies_get_dict s') with
                              | Some v => v
                              | None => []
                              end));
             trace := trace w ++ [EvRequest r] |})
     | (Raise e, s') =>
         (Raise e,
          {| srv := s'; xsrf_token := xsrf_token w;
             trace := trace w ++ [EvRequest r] |})
     end).
Proof.
  unfold _make_request_body, bind, get_token, session_send, session_cookies,
    _update_xsrf_token, ret.
  simpl. destruct (send _ (srv w)) as [[resp|e] s']; reflexivity.
Qed.

Lemma make_request_body_trace method url data w out w1 :
  _make_request_body method url data w = Some (out, w1) ->
  trace w1 = trace w ++ [EvRequest (request_of method url data (xsrf_token w))].
Proof.
  rewrite make_request_body_run. cbv zeta.
  destruct (send _ (srv w)) as [[resp|e] s']; intros Hrun;
    injection Hrun as <- <-; reflexivity.
Qed.

Lemma make_request_body_total method url data w :
  exists out w1, _make_request_body method url data w = Some (out, w1).
Proof.
  rewrite make_request_body_run. cbv zeta.
  destruct (send _ (srv w)) as [[resp|e] s']; eexists; eexists; reflexivity.
Qed.

(** [_initialize_session] never raises, whatever [_make_request] does,
    and is recorded as one event. *)
Lemma initialize_session_with_run mk w out w1 :
  _initialize_session_with mk w = Some (out, w1) ->
  out = Ret tt /\ exists body, trace w1 = trace w ++ [EvInit body].
Proof.
  unfold _initialize_session_with, as_init, try_except, bind, log, emit.
  destruct (mk _ _ _ _) as [[[o|e] w2]|]; simpl; intros Hrun;
    try discriminate; injection Hrun as <- <-; split; try reflexivity;
    eexists; reflexivity.
Qed.

Lemma make_request_unfold fuel method url data :
  _make_request (S fuel) method url data =
  wrapper_loop (_initialize_session fuel) (_make_request_body method url data) 3.
Proof. reflexivity. Qed.

(** A completed call never raises, returns [None] or the response of
    its last attempt, and makes at most three attempts of its own. *)
Lemma make_request_run fuel method url data w out w' :
  _make_request fuel method url data w = Some (out, w') ->
  (out = Ret None \/
   exists r w0, out = Ret (Some r) /\
                _make_request_body method url data w0 = Some (Ret r, w')) /\
  exists t, trace w' = trace w ++ t /\ attempts t <= 3 /\ reinits t <= 3.
Proof.
  destruct fuel as [|fuel]; [discriminate|].
  rewrite make_request_unfold. apply wrapper_loop_run.
  - intros w0 o w1 Hb. eexists. exact (make_request_body_trace _ _ _ _ Hb).
  - intros w0 o w1. apply initialize_session_with_run.
Qed.

(** An error that is not retryable ends the call at once. *)
Lemma make_request_abandons fuel method url data w e w1 :
  _make_request_body method url data w = Some (Raise e, w1) ->
  retryable e = false ->
  _make_request (S fuel) method url data w = Some (Ret None, printed (site_of e) e w1).
Proof.
  intros Hb He. rewrite make_request_unfold, wrapper_loop_step, Hb, He. reflexivity.
Qed.

Lemma make_request_returns fuel method url data w r w1 :
  _make_request_body method url data w = Some (Ret r, w1) ->
  _make_request (S fuel) method url data w = Some (Ret (Some r), w1).
Proof.
  intros Hb. rewrite make_request_unfold, wrapper_loop_step, Hb. reflexivity.
Qed.

(** When the request of a re-initialization does not itself fail with
    a retryable error, the re-initialization contains no other one. *)
Lemma initialize_session_flat fuel w w2 :
  (forall e w1,
      _make_request_body (py "get") base_url None (with_trace w []) = Some (Raise e, w1) ->
      retryable e = false) ->
  _initialize_session fuel w = Some (Ret tt, w2) ->
  exists body, trace w2 = trace w ++ [EvInit body] /\ all_reinits body = 0.
Proof.
  intros Hget. destruct fuel as [|fuel].
  - unfold _initialize_session, _initialize_session_with, as_init, try_except, bind.
    simpl. discriminate.
  - unfold _initialize_session, _initialize_session_with, as_init, try_except, bind.
    destruct (make_request_body_total (py "get") base_url None (with_trace w []))
      as [[r|e] [w1 Hb]].
    + rewrite (make_request_returns _ _ _ _ _ Hb).
      pose proof (make_request_body_trace _ _ _ _ Hb) as Ht.
      unfold log, emit. intros Hrun. injection Hrun as <-.
      eexists. split; [reflexivity|]. simpl. rewrite Ht. reflexivity.
    + rewrite (make_request_abandons _ _ _ _ _ Hb (Hget _ _ Hb)).
      pose proof (make_request_body_trace _ _ _ _ Hb) as Ht.
      unfold log, emit. intros Hrun. injection Hrun as <-.
      eexists. split; [reflexivity|]. simpl. rewrite Ht. reflexivity.
Qed.

End MakeRequest.

Lemma wrapper_loop_total {T : Transport} A (init : M unit) (func : M A) :
  (forall w, exists out w', func w = Some (out, w')) ->
  (forall w, exists out w', init w = Some (out, w')) ->
  forall n w, exists out w', wrapper_loop init func n w = Some (out, w').
Proof.
  intros Hfunc Hinit. induction n as [|n IH]; intros w.
  - eexists. eexists. reflexivity.
  - rewrite wrapper_loop_step.
    destruct (Hfunc w) as [[r|e] [w1 ->]]; [eexists; eexists; reflexivity|].
    destruct (retryable e); [|eexists; eexists; reflexivity].
    unfold bind.
    destruct (Hinit (printed Print419 e w1)) as [[[]|e'] [w2 ->]].
    + apply IH.
    + eexists. eexists. reflexivity.
Qed.

(** When the bootstrap request [GET /] never fails with a retryable
    error, one level of nesting is all a call needs: it completes. *)
Lemma make_request_total {T : Transport} :
  (forall w e w1,
      _make_request_body (py "get") base_url None w = Some (Raise e, w1) ->
      retryable e = false) ->
  forall fuel method url data w,
    exists out w', _make_request (S (S fuel)) method url data w = Some (out, w').
Proof.
  intros Hget fuel method url data w.
  rewrite make_request_unfold. apply wrapper_loop_total.
  - apply make_request_body_total.
  - intros w0. unfold _initialize_session, _initialize_session_with, as_init,
      try_except, bind.
    destruct (make_request_body_total (py "get") base_url None (with_trace w0 []))
      as [[r|e] [w1 Hb]].
    + rewrite (make_request_returns _ _ _ _ _ Hb). eexists. eexists. reflexivity.
    + rewrite (make_request_abandons _ _ _ _ _ Hb (Hget _ _ _ Hb)).
      eexists. eexists. reflexivity.
Qed.

(** ** C2: a 419, then a successful retry *)

(** C2, as stated, fails: the re-initialization goes through the same
    decorated [_make_request].  In this run the call first raises a 419
    and its retry, the second attempt, succeeds; the request of the
    re-initialization is itself answered by a 419, so a second
    re-initialization takes place inside the first one. *)
Lemma nested_reinitialization_counterexample :
  let w0 := start [Raise error_419; Raise error_419_home;
                    Ret (text_response "home"); Ret (text_response "home");
                    Ret (text_response "second")] in
  exists w1 w3,
    @_make_request_body scripted (py "post") list_url None w0
      = Some (Raise error_419, w1) /\
    @_make_request scripted 3 (py "post") list_url None w0
      = Some (Ret (Some (text_response "second")), w3) /\
    attempts (trace w3) = 2 /\
    all_reinits (trace w3) = 2.
Proof.
  eexists. eexists. split; [reflexivity|].
  split; [vm_compute; reflexivity|]. split; reflexivity.
Qed.

(** C2, amended: when an attempt raises an [HTTPError] whose string
    contains ["419"] and the retry that follows the re-initialization
    succeeds, [_make_request] returns the response of that second
    attempt, having made two attempts and started one
    re-initialization; this is the only re-initialization overall when
    its own request does not fail with a 419 in turn.  In all cases a
    call makes at most three attempts of its own. *)
Theorem make_request_retries_after_419 {T : Transport} :
  (forall fuel method url data (w0 w1 w2 w3 : world) status msg resp,
      _make_request_body method url data w0
        = Some (Raise (HTTPError status msg), w1) ->
      str_in (py "419") msg = true ->
      _initialize_session fuel (printed Print419 (HTTPError status msg) w1)
        = Some (Ret tt, w2) ->
      _make_request_body method url data w2 = Some (Ret resp, w3) ->
      _make_request (S fuel) method url data w0 = Some (Ret (Some resp), w3) /\
      exists t,
        trace w3 = trace w0 ++ t /\ attempts t = 2 /\ reinits t = 1 /\
        ((forall e w',
             _make_request_body (py "get") base_url None
               (with_trace (printed Print419 (HTTPError status msg) w1) [])
               = Some (Raise e, w') ->
             retryable e = false) ->
         all_reinits t = 1)) /\
  (forall fuel method url data (w w' : world) out,
      _make_request fuel method url data w = Some (out, w') ->
      exists t, trace w' = trace w ++ t /\ attempts t <= 3).
Proof.
  split.
  - intros fuel method url data w0 w1 w2 w3 status msg resp Hfirst H419 Hinit Hsecond.
    split.
    + rewrite make_request_unfold, wrapper_loop_step, Hfirst.
      cbn [retryable]. rewrite H419. unfold bind at 1.
      rewrite Hinit, wrapper_loop_step, Hsecond. reflexivity.
    + pose proof (make_request_body_trace _ _ _ _ Hfirst) as Ht1.
      pose proof (make_request_body_trace _ _ _ _ Hsecond) as Ht3.
      destruct (initialize_session_with_run _ _ Hinit) as [_ [body Ht2]].
      exists [EvRequest (request_of method url data (xsrf_token w0));
              EvPrint Print419 (HTTPError status msg);
              EvInit body;
              EvRequest (request_of method url data (xsrf_token w2))].
      split; [|split; [reflexivity|split; [reflexivity|]]].
      * rewrite Ht3, Ht2. unfold printed; simpl. rewrite Ht1.
        rewrite <- !app_assoc. reflexivity.
      * intros Hget.
        destruct (@initialize_session_flat _ _ _ _ Hget Hinit) as [body' [Ht2' Hflat]].
        rewrite Ht2 in Ht2'. apply app_inv_head in Ht2'.
        injection Ht2' as ->.
        cbn [all_reinits]. rewrite event_reinits_init, Hflat. reflexivity.
  - intros fuel method url data w w' out Hrun.
    destruct (make_request_run _ _ _ _ _ Hrun) as [_ [t [Ht [Ha _]]]].
    exists t. split; assumption.
Qed.

Lemma make_request_retries_after_419_witness :
  exists w3,
    @_make_request scripted 2 (py "post") list_url None
      (start [Raise error_419; Ret (text_response "home"); Ret (text_response "second")])
    = Some (Ret (Some (text_response "second")), w3) /\
    exists t, trace w3 = [] ++ t /\ attempts t = 2 /\ reinits t = 1 /\ all_reinits t = 1.
Proof.
  eexists.
  destruct (proj1 (@make_request_retries_after_419 scripted) 1 (py "post") list_url None
              (start [Raise error_419; Ret (text_response "home");
                      Ret (text_response "second")])
              _ _ _ _ _ _ eq_refl eq_refl eq_refl eq_refl)
    as [Hret [t [Ht [Ha [Hr Hall]]]]].
  split; [exact Hret|].
  exists t. repeat split; try assumption.
  apply Hall. intros e w'. vm_compute. discriminate.
Defined.

(** ** C3: errors that are not retried *)

(** C3, as stated, fails: the loop does not look at the status.  Here
    the call raises an HTTP error of status 500 whose string mentions
    ["419"]; the session is re-initialized and a second attempt is made,
    whose response is returned. *)
Lemma make_request_status_500_counterexample :
  let w0 := start [Raise error_500_mentioning_419;
                    Ret (text_response "home"); Ret (text_response "second")] in
  exists w1 w',
    @_make_request_body scripted (py "post") list_url None w0
      = Some (Raise error_500_mentioning_419, w1) /\
    @_make_request scripted 2 (py "post") list_url None w0
      = Some (Ret (Some (text_response "second")), w') /\
    attempts (trace w') = 2 /\
    all_reinits (trace w') = 1.
Proof.
  eexists. eexists. split; [reflexivity|].
  split; [vm_compute; reflexivity|]. split; reflexivity.
Qed.

(** C3, amended: when an attempt raises an [HTTPError] whose string
    does not contain ["419"], or any exception that is not an
    [HTTPError], the call makes that one attempt only, prints the error,
    re-initializes nothing and returns [None]. *)
Theorem make_request_gives_up {T : Transport} :
  forall fuel method url data (w w1 : world) e,
    _make_request_body method url data w = Some (Raise e, w1) ->
    match e with
    | HTTPError _ msg => str_in (py "419") msg = false
    | _ => True
    end ->
    exists w' t,
      _make_request (S fuel) method url data w = Some (Ret None, w') /\
      srv w' = srv w1 /\ xsrf_token w' = xsrf_token w /\
      trace w' = trace w ++ t /\
      t = [EvRequest (request_of method url data (xsrf_token w));
           EvPrint (site_of e) e] /\
      attempts t = 1 /\ all_reinits t = 0.
Proof.
  intros fuel method url data w w1 e Hb He.
  assert (Hr : retryable e = false) by (destruct e; simpl; auto).
  exists (printed (site_of e) e w1). eexists.
  split; [exact (make_request_abandons _ _ _ _ _ Hb Hr)|].
  pose proof (make_request_body_trace _ _ _ _ Hb) as Ht.
  assert (Hstate : srv (printed (site_of e) e w1) = srv w1 /\
                   xsrf_token w1 = xsrf_token w).
  { rewrite make_request_body_run in Hb. cbv zeta in Hb.
    destruct (send _ (srv w)) as [[resp|e0] s']; [discriminate|].
    injection Hb as _ <-. split; reflexivity. }
  destruct Hstate as [Hsrv Htok].
  split; [exact Hsrv|]. split; [exact Htok|].
  split; [|split; [reflexivity|]].
  - unfold printed; simpl. rewrite Ht, <- app_assoc. reflexivity.
  - destruct e; split; reflexivity.
Qed.

Lemma make_request_gives_up_witness :
  exists w',
    @_make_request scripted 1 (py "post") list_url None
      (start [Raise error_500; Ret (text_response "home")])
    = Some (Ret None, w') /\
    attempts (trace w') = 1 /\ all_reinits (trace w') = 0.
Proof.
  destruct (@make_request_gives_up scripted 0 (py "post") list_url None
              (start [Raise error_500; Ret (text_response "home")]) _ _
              eq_refl eq_refl)
    as [w' [t [Hrun [_ [_ [Ht [_ [Ha Hr]]]]]]]].
  exists w'. split; [exact Hrun|].
  simpl in Ht. rewrite Ht. split; assumption.
Defined.

(** ** C10: which errors are retried *)

(** C10: after an attempt raises an [HTTPError], what the loop does
    depends on one thing only, whether ["419"] occurs in [str(e)]: if it
    does the session is re-initialized and the loop goes on with the two
    attempts that remain, if it does not the call returns [None]
    without re-initializing.  The status plays no part: a 500 whose
    string mentions ["419"] is retried, a 419 whose string does not is
    not. *)
Theorem retry_is_decided_by_substring {T : Transport} :
  (forall fuel method url data (w w1 : world) status msg,
      _make_request_body method url data w
        = Some (Raise (HTTPError status msg), w1) ->
      _make_request (S fuel) method url data w =
      if str_in (py "419") msg
      then (_initialize_session fuel ;;
            wrapper_loop (_initialize_session fuel)
                         (_make_request_body method url data) 2)
             (printed Print419 (HTTPError status msg) w1)
      else Some (Ret None, printed PrintHTTPError (HTTPError status msg) w1)) /\
  (exists w',
      @_make_request scripted 2 (py "post") list_url None
        (start [Raise error_500_mentioning_419;
                Ret (text_response "home"); Ret (text_response "second")])
      = Some (Ret (Some (text_response "second")), w') /\
      attempts (trace w') = 2 /\ reinits (trace w') = 1) /\
  (exists w',
      @_make_request scripted 2 (py "post") list_url None
        (start [Raise error_419_unmarked;
                Ret (text_response "home"); Ret (text_response "second")])
      = Some (Ret None, w') /\
      attempts (trace w') = 1 /\ reinits (trace w') = 0).
Proof.
  split; [|split].
  - intros fuel method url data w w1 status msg Hb.
    rewrite make_request_unfold, wrapper_loop_step, Hb. reflexivity.
  - eexists. split; [vm_compute; reflexivity|]. split; reflexivity.
  - eexists. split; [vm_compute; reflexivity|]. split; reflexivity.
Qed.

Lemma retry_is_decided_by_substring_witness :
  @_make_request scripted 1 (py "post") list_url None
    (start [Raise error_419_unmarked; Ret (text_response "home")])
  = Some (Ret None,
          printed PrintHTTPError error_419_unmarked
            {| srv := ([Ret (text_response "home")] : @server scripted);
               xsrf_token := None;
               trace := [EvRequest (request_of (py "post") list_url None None)] |}).
Proof.
  exact (proj1 (@retry_is_decided_by_substring scripted) 0 (py "post") list_url None
               (start [Raise error_419_unmarked; Ret (text_response "home")])
               _ _ _ eq_refl).
Defined.

(** ** The callers of [_make_request] when it returns [None] *)

Lemma generate_email_no_response {T : Transport} fuel email_types (w w' : world) :
  _make_request fuel (py "post") (base_url ++ py "/generate-email")
    (Some (JDict [(py "email", JList (map JStr email_types))])) w
    = Some (Ret None, w') ->
  generate_email fuel email_types w = Some (Ret JNull, w').
Proof. intros Hreq. unfold generate_email, bind. rewrite Hreq. reflexivity. Qed.

Lemma get_message_list_no_response {T : Transport} fuel email (w w' : world) :
  _make_request fuel (py "post") list_url (Some (JDict [(py "email", JStr email)])) w
    = Some (Ret None, w') ->
  get_message_list fuel email w = Some (Ret [], w').
Proof.
  intros Hreq. unfold get_message_list, bind. fold list_url. rewrite Hreq. reflexivity.
Qed.

Lemma get_email_content_no_response {T : Transport} {H : HtmlParser}
      fuel email message_id (w w' : world) :
  _make_request fuel (py "post") list_url
    (Some (JDict [(py "email", JStr email); (py "messageID", JStr message_id)])) w
    = Some (Ret None, w') ->
  get_email_content fuel email message_id w = Some (Ret (JDict []), w').
Proof.
  intros Hreq. unfold get_email_content, bind. fold list_url. rewrite Hreq. reflexivity.
Qed.

(** ** C7: no exception leaves [_make_request] *)

(** C7: a completed call of [_make_request] never raises: it returns
    [None], or the response of an attempt that succeeded.  The call
    does complete, whatever the transport does, as long as the
    bootstrap request [GET /] does not itself fail with a 419.  When it
    returns [None], [generate_email] returns [None], [get_message_list]
    the empty list and [get_email_content] the empty record. *)
Theorem no_exception_crosses_make_request {T : Transport} {H : HtmlParser} :
  (forall fuel method url data (w w' : world) out,
      _make_request fuel method url data w = Some (out, w') ->
      out = Ret None \/
      exists r w0, out = Ret (Some r) /\
                   _make_request_body method url data w0 = Some (Ret r, w')) /\
  ((forall (w w1 : world) e,
       _make_request_body (py "get") base_url None w = Some (Raise e, w1) ->
       retryable e = false) ->
   forall fuel method url data (w : world),
   exists o w', _make_request (S (S fuel)) method url data w = Some (Ret o, w')) /\
  (forall fuel email_types (w w' : world),
      _make_request fuel (py "post") (base_url ++ py "/generate-email")
        (Some (JDict [(py "email", JList (map JStr email_types))])) w
        = Some (Ret None, w') ->
      generate_email fuel email_types w = Some (Ret JNull, w')) /\
  (forall fuel email (w w' : world),
      _make_request fuel (py "post") list_url
        (Some (JDict [(py "email", JStr email)])) w = Some (Ret None, w') ->
      get_message_list fuel email w = Some (Ret [], w')) /\
  (forall fuel email message_id (w w' : world),
      _make_request fuel (py "post") list_url
        (Some (JDict [(py "email", JStr email); (py "messageID", JStr message_id)])) w
        = Some (Ret None, w') ->
      get_email_content fuel email message_id w = Some (Ret (JDict []), w')).
Proof.
  split; [|split; [|split; [|split]]].
  - intros fuel method url data w w' out Hrun.
    exact (proj1 (make_request_run _ _ _ _ _ Hrun)).
  - intros Hget fuel method url data w.
    destruct (make_request_total (fun w0 e w1 => @Hget w0 w1 e) fuel method url data w)
      as [out [w' Hrun]].
    destruct (proj1 (make_request_run _ _ _ _ _ Hrun)) as [-> | [r [w0 [-> _]]]];
      eexists; eexists; exact Hrun.
  - intros. apply generate_email_no_response. assumption.
  - intros. apply get_message_list_no_response. assumption.
  - intros. apply get_email_content_no_response. assumption.
Qed.

Lemma no_exception_crosses_make_request_witness :
  exists w',
    @_make_request scripted 1 (py "post") list_url
      (Some (JDict [(py "email", JStr (py "x@gmail.com"))]))
      (start [Raise (RequestError (py "timed out"))]) = Some (Ret None, w') /\
    @get_message_list scripted 1 (py "x@gmail.com")
      (start [Raise (RequestError (py "timed out"))]) = Some (Ret [], w').
Proof.
  eexists. split; [vm_compute; reflexivity|].
  apply (proj1 (proj2 (proj2 (proj2
           (@no_exception_crosses_make_request scripted (toy_parser [])))))).
  vm_compute. reflexivity.
Defined.

(** ** C9: [generate_premium_email] with no attempt allowed *)

(** C9: with [max_attempts = 0] the loop body is never entered:
    [generate_premium_email] logs the warning and returns [None], and
    leaves the service, the token and the rest of the trace untouched.
    This holds for every fuel, so also where a call of [generate_email]
    could not complete: none is made. *)
Theorem generate_premium_email_zero_attempts {T : Transport} :
  forall fuel num email_type (w : world),
    generate_premium_email fuel 0 num email_type w
      = Some (Ret JNull, logged WARNING (MsgPremiumExhausted 0) w) /\
    srv (logged WARNING (MsgPremiumExhausted 0) w) = srv w /\
    attempts (trace (logged WARNING (MsgPremiumExhausted 0) w)) = attempts (trace w).
Proof.
  intros fuel num email_type w. split; [reflexivity|]. split; [reflexivity|].
  unfold logged; simpl. rewrite attempts_app. unfold attempts at 2. simpl. lia.
Qed.

(** ** C6: what [get_message_list] keeps *)

Lemma filter_from_well_formed : forall entries,
  Forall (fun m => sender_of m <> None) entries ->
  filter_from entries = Ret (filter has_at entries).
Proof.
  induction entries as [|m entries IH]; intros Hwf; [reflexivity|].
  inversion Hwf as [|? ? Hm Hrest]; subst.
  cbn [filter_from filter]. rewrite (IH Hrest). unfold has_at.
  destruct m as [| | | | |kv]; simpl in Hm |- *; try congruence.
  destruct (lookup (py "from") kv) as [[| | |s| |]|]; simpl in Hm |- *;
    congruence.
Qed.


Lemma filter_from_sound : forall items l,
  filter_from items = Ret l -> l = filter kept items.
Proof.
  induction items as [|m items IH]; intros l Hf.
  - injection Hf as <-. reflexivity.
  - cbn [filter_from] in Hf. cbn [filter]. unfold kept at 1.
    destruct (getitem_str m (py "from")) as [sender|]; [|discriminate].
    cbn [res_bind] in *.
    destruct (contains_str (py "@") sender) as [keep|]; [|discriminate].
    cbn [res_bind] in Hf.
    destruct (filter_from items) as [l'|]; [|discriminate].
    cbn [res_bind] in Hf. injection Hf as <-.
    rewrite (IH _ eq_refl). reflexivity.
Qed.

(** C6, as stated, fails: of these two entries one has a [from] that
    contains an ["@"], the other has no [from] at all;
    [get_message_list] does not return the first one, it raises. *)
Lemma get_message_list_entry_without_from_counterexample :
  let entries := [summary "Ann <ann@example.org>" "Just Now"; anonymous_entry] in
  filter kept entries = [summary "Ann <ann@example.org>" "Just Now"] /\
  exists w',
    @get_message_list scripted 1 (py "x@gmail.com") (start [Ret (list_response entries)])
    = Some (Raise KeyError, w').
Proof.
  split; [reflexivity|]. eexists. vm_compute. reflexivity.
Qed.

(** The comprehension raises at the first entry it cannot read. *)
Lemma filter_from_first_fault : forall pre m post e,
  Forall (fun x => sender_of x <> None) pre ->
  res_bind (getitem_str m (py "from")) (contains_str (py "@")) = Raise e ->
  filter_from (pre ++ m :: post) = Raise e.
Proof.
  induction pre as [|x pre IH]; intros m post e Hpre Hm.
  - cbn [app filter_from].
    destruct (getitem_str m (py "from")) as [sender|e0]; cbn [res_bind] in Hm |- *.
    + rewrite Hm. reflexivity.
    + congruence.
  - inversion Hpre as [|? ? Hx Hpre']; subst.
    cbn [app filter_from]. rewrite (IH _ _ _ Hpre' Hm).
    destruct x as [| | | | |kv]; simpl in Hx |- *; try congruence.
    destruct (lookup (py "from") kv) as [[| | |s| |]|]; simpl in Hx |- *;
      congruence.
Qed.

Lemma filter_from_unreadable : forall entries m,
  In m entries -> unreadable m = true -> exists e, filter_from entries = Raise e.
Proof.
  induction entries as [|x entries IH]; intros m Hin Hm; [destruct Hin|].
  cbn [filter_from].
  destruct (res_bind (getitem_str x (py "from")) (contains_str (py "@")))
    as [keep|e] eqn:Hx.
  - assert (Hrest : exists e, filter_from entries = Raise e).
    { destruct Hin as [<- | Hin]; [|exact (IH _ Hin Hm)].
      unfold unreadable in Hm. rewrite Hx in Hm. discriminate. }
    destruct Hrest as [e He].
    destruct (getitem_str x (py "from")) as [sender|]; [|discriminate].
    cbn [res_bind] in Hx |- *. rewrite Hx. cbn [res_bind]. rewrite He.
    exists e. reflexivity.
  - exists e.
    destruct (getitem_str x (py "from")) as [sender|e0]; cbn [res_bind] in Hx |- *.
    + rewrite Hx. reflexivity.
    + congruence.
Qed.

(** C6, amended: when the request fails, [get_message_list] returns
    the empty list.  When it succeeds with a JSON object, and every
    entry of its [messageData] array has a [from] string, the entries
    are returned in order, those whose [from] lacks an ["@"] left out;
    without a [messageData] key the list is empty.  Whatever the
    entries are, a list that [get_message_list] does return is made of
    exactly the entries for which [["@" in msg["from"]]] holds, in
    order.  An entry on which that test cannot be evaluated is not left
    out: the call raises instead of returning, with [KeyError] when the
    entries before it have a [from] string and it is an object without
    a [from]. *)
Theorem get_message_list_keeps_senders_with_at {T : Transport} :
  forall fuel email (w w' : world),
    (_make_request fuel (py "post") list_url
       (Some (JDict [(py "email", JStr email)])) w = Some (Ret None, w') ->
     get_message_list fuel email w = Some (Ret [], w')) /\
    (forall r kv,
        _make_request fuel (py "post") list_url
          (Some (JDict [(py "email", JStr email)])) w = Some (Ret (Some r), w') ->
        resp_json r = Some (JDict kv) ->
        (forall entries,
            lookup (py "messageData") kv = Some (JList entries) ->
            Forall (fun m => sender_of m <> None) entries ->
            get_message_list fuel email w = Some (Ret (filter has_at entries), w')) /\
        (lookup (py "messageData") kv = None ->
         get_message_list fuel email w = Some (Ret [], w')) /\
        (forall entries l w'',
            lookup (py "messageData") kv = Some (JList entries) ->
            get_message_list fuel email w = Some (Ret l, w'') ->
            l = filter kept entries) /\
        (forall entries m,
            lookup (py "messageData") kv = Some (JList entries) ->
            In m entries ->
            unreadable m = true ->
            exists e, get_message_list fuel email w = Some (Raise e, w')) /\
        (forall pre fields post,
            lookup (py "messageData") kv = Some (JList (pre ++ JDict fields :: post)) ->
            Forall (fun m => sender_of m <> None) pre ->
            lookup (py "from") fields = None ->
            get_message_list fuel email w = Some (Raise KeyError, w'))).
Proof.
  intros fuel email w w'. split.
  - apply get_message_list_no_response.
  - intros r kv Hreq Hjson.
    assert (Hrun : forall v,
               dict_get (JDict kv) (py "messageData") (JList []) = Ret v ->
               get_message_list fuel email w
               = Some (res_bind (iterate v) filter_from, w')).
    { intros v Hv. unfold get_message_list, bind. fold list_url. rewrite Hreq.
      unfold lift. rewrite Hjson. cbn [res_bind]. rewrite Hv. reflexivity. }
    split; [|split; [|split; [|split]]].
    + intros entries Hdata Hwf.
      rewrite (Hrun (JList entries)) by (cbn [dict_get]; rewrite Hdata; reflexivity).
      cbn [res_bind iterate]. rewrite (filter_from_well_formed Hwf). reflexivity.
    + intros Hdata.
      rewrite (Hrun (JList [])) by (cbn [dict_get]; rewrite Hdata; reflexivity).
      reflexivity.
    + intros entries l w'' Hdata.
      rewrite (Hrun (JList entries)) by (cbn [dict_get]; rewrite Hdata; reflexivity).
      cbn [res_bind iterate]. intros Hl. injection Hl as Hl _.
      exact (filter_from_sound _ Hl).
    + intros entries m Hdata Hin Hm.
      rewrite (Hrun (JList entries)) by (cbn [dict_get]; rewrite Hdata; reflexivity).
      cbn [res_bind iterate].
      destruct (filter_from_unreadable _ _ Hin Hm) as [e ->].
      exists e. reflexivity.
    + intros pre fields post Hdata Hpre Hfrom.
      rewrite (Hrun (JList (pre ++ JDict fields :: post)))
        by (cbn [dict_get]; rewrite Hdata; reflexivity).
      cbn [res_bind iterate].
      rewrite (@filter_from_first_fault pre (JDict fields) post KeyError Hpre);
        [reflexivity|].
      cbn [getitem_str]. rewrite Hfrom. reflexivity.
Qed.

Lemma get_message_list_keeps_senders_with_at_witness :
  (exists w',
      @get_message_list scripted 1 (py "x@gmail.com")
        (start [Ret (list_response [summary "Ann <ann@example.org>" "5 min ago";
                                    summary "placeholder" "Just Now";
                                    summary "bob@example.org" "Just Now"])])
      = Some (Ret [summary "Ann <ann@example.org>" "5 min ago";
                   summary "bob@example.org" "Just Now"], w')) /\
  (exists w',
      @get_message_list scripted 1 (py "x@gmail.com")
        (start [Ret (list_response [summary "Ann <ann@example.org>" "Just Now";
                                    anonymous_entry])])
      = Some (Raise KeyError, w')) /\
  (exists e w',
      @get_message_list scripted 1 (py "x@gmail.com")
        (start [Ret (list_response [JNum 5; anonymous_entry])])
      = Some (Raise e, w')).
Proof.
  split; [|split].
  - eexists.
    edestruct (@get_message_list_keeps_senders_with_at scripted 1 (py "x@gmail.com")
                 (start [Ret (list_response [summary "Ann <ann@example.org>" "5 min ago";
                                             summary "placeholder" "Just Now";
                                             summary "bob@example.org" "Just Now"])]))
      as [_ Hsuccess].
    edestruct Hsuccess as [Hdata _]; [vm_compute; reflexivity | reflexivity |].
    apply (Hdata [summary "Ann <ann@example.org>" "5 min ago";
                  summary "placeholder" "Just Now";
                  summary "bob@example.org" "Just Now"]);
      [reflexivity | repeat constructor; discriminate].
  - eexists.
    edestruct (@get_message_list_keeps_senders_with_at scripted 1 (py "x@gmail.com")
                 (start [Ret (list_response [summary "Ann <ann@example.org>" "Just Now";
                                             anonymous_entry])]))
      as [_ Hsuccess].
    edestruct Hsuccess as (_ & _ & _ & _ & Hkey); [vm_compute; reflexivity | reflexivity |].
    apply (Hkey [summary "Ann <ann@example.org>" "Just Now"]
                [(py "subject", JStr (py "hello")); (py "time", JStr (py "Just Now"))]
                []);
      [reflexivity | repeat constructor; discriminate | reflexivity].
  - edestruct (@get_message_list_keeps_senders_with_at scripted 1 (py "x@gmail.com")
                 (start [Ret (list_response [JNum 5; anonymous_entry])]))
      as [_ Hsuccess].
    edestruct Hsuccess as (_ & _ & _ & Hfault & _); [vm_compute; reflexivity | reflexivity |].
    destruct (Hfault [JNum 5; anonymous_entry] (JNum 5)) as [e He];
      [reflexivity | left; reflexivity | reflexivity |].
    exists e. eexists. exact He.
Defined.

(** ** C4: the first summary marked "Just Now" *)







(** ** C5: the body of a parsed message *)

(** A way to check a first occurrence by computation: no occurrence
    starts at a position before [pre] ends. *)
Lemma first_occurrence_check sep pre post :
  forallb (fun k => negb (startswith sep (skipn k (pre ++ sep ++ post))))
          (seq 0 (length pre)) = true ->
  first_occurrence sep (pre ++ sep ++ post) pre post.
Proof.
  intros Hcheck. split; [reflexivity|].
  intros pre' post' Hocc.
  destruct (Nat.le_gt_cases (length pre) (length pre')) as [Hle|Hlt]; [exact Hle|].
  rewrite forallb_forall in Hcheck.
  specialize (Hcheck (length pre')).
  rewrite Hocc, skipn_app, skipn_all, Nat.sub_diag in Hcheck. simpl in Hcheck.
  assert (Hs : startswith sep (sep ++ post') = true)
    by (apply startswith_spec; exists post'; reflexivity).
  rewrite Hs in Hcheck.
  assert (Hin : In (length pre') (seq 0 (length pre))) by (apply in_seq; lia).
  specialize (Hcheck Hin). discriminate.
Qed.

Lemma body_of_first_occurrence content pre post :
  first_occurrence divider content pre post ->
  body_of content = strip post.
Proof.
  intros Hfirst. pose proof Hfirst as [Hocc _].
  unfold body_of.
  assert (Hin : str_in divider content = true)
    by (apply str_in_spec; exists pre, post; exact Hocc).
  rewrite Hin. unfold split. subst content.
  rewrite split_once_first by (exact Hfirst || discriminate).
  reflexivity.
Qed.

Lemma body_of_absent content :
  (forall pre post, content <> pre ++ divider ++ post) ->
  body_of content = [].
Proof.
  intros Habsent. unfold body_of.
  destruct (str_in divider content) eqn:Hin; [|reflexivity].
  apply str_in_spec in Hin. destruct Hin as [pre [post Hocc]].
  destruct (Habsent _ _ Hocc).
Qed.

Lemma parse_email_content_body_field {H : HtmlParser} content d :
  _parse_email_content content = Ret d ->
  getitem_str d (py "body") = Ret (JStr (body_of content)).
Proof.
  unfold _parse_email_content.
  destruct (label_text _ 0) as [sender|]; [|discriminate].
  destruct (label_text _ 1) as [subject|]; [|discriminate].
  destruct (label_text _ 2) as [time|]; [|discriminate].
  cbn [res_bind]. intros Hd. injection Hd as <-. reflexivity.
Qed.

(** C5: whenever [_parse_email_content] produces a record, its [body]
    is the text that follows the first occurrence of the divider,
    trimmed of the whitespace around it, and the empty string when the
    divider does not occur; after a first divider followed by
    ["Hello"] the body is ["Hello"]. *)
Theorem parse_email_content_body {H : HtmlParser} :
  forall content d,
    _parse_email_content content = Ret d ->
    exists b,
      getitem_str d (py "body") = Ret (JStr b) /\
      (forall pre post,
          first_occurrence divider content pre post ->
          b = strip post /\ trimmed_of post b) /\
      (forall pre,
          first_occurrence divider content pre (py "Hello") -> b = py "Hello") /\
      ((forall pre post, content <> pre ++ divider ++ post) -> b = []).
Proof.
  intros content d Hparse. exists (body_of content).
  split; [exact (parse_email_content_body_field _ Hparse)|].
  split; [|split].
  - intros pre post Hfirst.
    rewrite (body_of_first_occurrence Hfirst).
    split; [reflexivity | apply strip_spec].
  - intros pre Hfirst. rewrite (body_of_first_occurrence Hfirst). reflexivity.
  - apply body_of_absent.
Qed.

Lemma parse_email_content_body_witness :
  exists d,
    @_parse_email_content (toy_parser [py "Ann"; py "Greetings"; py "Just Now"])
      (py "<div id=subject-header></div><hr /></div></div>Hello") = Ret d /\
    getitem_str d (py "body") = Ret (JStr (py "Hello")).
Proof.
  eexists. split; [reflexivity|].
  destruct (@parse_email_content_body
              (toy_parser [py "Ann"; py "Greetings"; py "Just Now"])
              (py "<div id=subject-header></div><hr /></div></div>Hello") _ eq_refl)
    as [b [Hbody [_ [Hhello _]]]].
  rewrite Hbody. f_equal. f_equal.
  apply (Hhello (py "<div id=subject-header></div>")).
  apply (first_occurrence_check divider (py "<div id=subject-header></div>") (py "Hello")).
  vm_compute. reflexivity.
Defined.

(** ** C8: a document without the expected header *)

(** C8: when the document has no element with id ["subject-header"],
    or that element has fewer than three [<b>] elements,
    [_parse_email_content] faults; the fault is raised after
    [_make_request] has returned, so it leaves [get_email_content] as an
    exception instead of a record. *)
Theorem parse_email_content_faults {T : Transport} {H : HtmlParser} :
  forall content,
    (soup_find_id content (py "subject-header") = None \/
     exists h, soup_find_id content (py "subject-header") = Some h /\
               length (find_all h (py "b")) < 3) ->
    (exists e, _parse_email_content content = Raise e) /\
    (forall fuel email message_id (w w' : world) r,
        _make_request fuel (py "post") list_url
          (Some (JDict [(py "email", JStr email); (py "messageID", JStr message_id)])) w
          = Some (Ret (Some r), w') ->
        resp_text r = content ->
        exists e, get_email_content fuel email message_id w = Some (Raise e, w')).
Proof.
  intros content Hbad.
  assert (Hfault : exists e, _parse_email_content content = Raise e).
  { unfold _parse_email_content, label_text.
    destruct Hbad as [-> | [h [-> Hshort]]]; [eexists; reflexivity|].
    destruct (find_all h (py "b")) as [|b0 [|b1 [|b2 rest]]];
      simpl in Hshort; try lia; simpl.
    - eexists; reflexivity.
    - destruct (next_sibling_strip b0); eexists; reflexivity.
    - destruct (next_sibling_strip b0); simpl; [|eexists; reflexivity].
      destruct (next_sibling_strip b1); eexists; reflexivity. }
  split; [exact Hfault|].
  intros fuel email message_id w w' r Hreq Htext.
  destruct Hfault as [e He]. exists e.
  unfold get_email_content, bind. fold list_url. rewrite Hreq.
  unfold lift. rewrite Htext, He. reflexivity.
Qed.

Lemma parse_email_content_faults_witness :
  exists e w',
    @get_email_content scripted (toy_parser [py "Ann"; py "Greetings"]) 1
      (py "x@gmail.com") (py "id")
      (start [Ret (text_response "<div id=subject-header></div><hr /></div></div>Hello")])
    = Some (Raise e, w').
Proof.
  destruct (@parse_email_content_faults scripted (toy_parser [py "Ann"; py "Greetings"])
              (py "<div id=subject-header></div><hr /></div></div>Hello"))
    as [_ Hcaller].
  - right. eexists. split; [reflexivity|]. simpl. lia.
  - edestruct (Hcaller 1 (py "x@gmail.com") (py "id")
                 (start [Ret (text_response
                                "<div id=subject-header></div><hr /></div></div>Hello")]))
      as [e He]; [vm_compute; reflexivity | reflexivity |].
    exists e. eexists. exact He.
Defined.

(* ================================================================== *)
(** * Further properties of the client *)
(* ================================================================== *)

(** ** What an attempt sends and what it stores *)

(** X1: an attempt hands one request to the transport, for the URL it
    was given, with the fixed user agent and, as [X-Xsrf-Token], the
    token the client holds at that moment.  The request is a POST
    exactly when the method is ["post"] in any letter case, and only a
    POST carries the data and the JSON headers; with any other method
    the data is not sent. *)
Theorem attempt_sends_stored_token {T : Transport} :
  forall method url data (w w1 : world) out,
    _make_request_body method url data w = Some (out, w1) ->
    exists r,
      trace w1 = trace w ++ [EvRequest r] /\
      req_url r = url /\
      lookup (py "X-Xsrf-Token") (req_headers r) = Some (xsrf_token w) /\
      lookup (py "User-Agent") (req_headers r) = Some (Some USER_AGENT) /\
      (req_verb r = POST <-> str_eqb (lower method) (py "post") = true) /\
      (req_verb r = POST ->
       req_json r = data /\
       lookup (py "Content-Type") (req_headers r) = Some (Some (py "application/json"))) /\
      (req_verb r = GET ->
       req_json r = None /\ lookup (py "Content-Type") (req_headers r) = None).
Proof.
  intros method url data w w1 out Hrun.
  exists (request_of method url data (xsrf_token w)).
  split; [exact (make_request_body_trace _ _ _ _ Hrun)|].
  unfold request_of.
  destruct (str_eqb (lower method) (py "post")); cbn [req_url req_verb req_json req_headers].
  - repeat split; try reflexivity; try discriminate.
  - repeat split; try reflexivity; try discriminate.
Qed.

Lemma attempt_sends_stored_token_witness :
  exists r w1,
    trace (w1 : @world scripted) = [EvRequest r] /\
    req_verb r = POST /\ req_json r = Some (JStr (py "payload")) /\
    lookup (py "X-Xsrf-Token") (req_headers r) = Some None.
Proof.
  destruct (@attempt_sends_stored_token scripted (py "POST") list_url
              (Some (JStr (py "payload"))) (start [Ret (text_response "ok")]) _ _ eq_refl)
    as [r [Ht [_ [Htok [_ [Hverb [Hpost _]]]]]]].
  assert (Hv : req_verb r = POST) by (apply Hverb; reflexivity).
  exists r. eexists. split; [exact Ht|]. split; [exact Hv|].
  split; [exact (proj1 (Hpost Hv)) | exact Htok].
Defined.

(** X2: the stored token changes only with a successful attempt.  An
    attempt that raises leaves it as it was, and whenever
    [_make_request] returns a response the token the client holds is
    the one of the session's cookies at that moment; when the cookies
    hold no [XSRF-TOKEN] this is the decoding of the empty string, and
    the token held before is lost. *)
Theorem token_follows_successful_responses {T : Transport} :
  (forall method url data (w w1 : world) e,
      _make_request_body method url data w = Some (Raise e, w1) ->
      xsrf_token w1 = xsrf_token w) /\
  (forall fuel method url data (w w' : world) r,
      _make_request fuel method url data w = Some (Ret (Some r), w') ->
      xsrf_token w' = Some (cookie_token (srv w')) /\
      (lookup (py "XSRF-TOKEN") (cookies_get_dict (srv w')) = None ->
       xsrf_token w' = Some (unquote []))).
Proof.
  split.
  - intros method url data w w1 e Hb.
    rewrite make_request_body_run in Hb. cbv zeta in Hb.
    destruct (send _ (srv w)) as [[resp|e0] s']; [discriminate|].
    injection Hb as _ <-. reflexivity.
  - intros fuel method url data w w' r Hrun.
    destruct (proj1 (make_request_run _ _ _ _ _ Hrun)) as [Hnone | [r0 [w0 [_ Hb]]]];
      [discriminate|].
    rewrite make_request_body_run in Hb. cbv zeta in Hb.
    destruct (send _ (srv w0)) as [[resp|e0] s']; [|discriminate].
    injection Hb as _ <-. cbn [xsrf_token srv]. unfold cookie_token.
    split; [reflexivity|]. intros ->. reflexivity.
Qed.

Lemma token_follows_successful_responses_witness :
  exists w',
    @_make_request scripted 2 (py "post") list_url None
      (start [Raise error_419; Ret (text_response "home"); Ret (text_response "second")])
    = Some (Ret (Some (text_response "second")), w') /\
    xsrf_token w' = Some (py "tok").
Proof.
  eexists. split; [vm_compute; reflexivity|].
  exact (proj1 (proj2 (@token_follows_successful_responses scripted) 2 (py "post")
                      list_url None
                      (start [Raise error_419; Ret (text_response "home");
                              Ret (text_response "second")]) _ _ eq_refl)).
Defined.

(** ** The retry loop *)

Section RetriedCall.

Context {T : Transport}.
Variable A : Type.
Variable init : M unit.
Variable func : M A.
Variable is_attempt : event -> Prop.

Hypothesis func_attempt : forall w out w1,
  func w = Some (out, w1) -> exists ev, is_attempt ev /\ trace w1 = trace w ++ [ev].

Hypothesis init_event : forall w out w1,
  init w = Some (out, w1) -> exists body, trace w1 = trace w ++ [EvInit body].

Hypothesis others : forall ev, is_request ev = false -> is_attempt ev.

Lemma wrapper_loop_events : forall n w out w',
  wrapper_loop init func n w = Some (out, w') ->
  exists t, trace w' = trace w ++ t /\ Forall is_attempt t.
Proof.
  induction n as [|n IH]; intros w out w' Hrun.
  - injection Hrun as _ <-. exists []. rewrite app_nil_r. split; constructor.
  - rewrite wrapper_loop_step in Hrun.
    destruct (func w) as [[[r|e] w1]|] eqn:Hf; [| |discriminate].
    + injection Hrun as _ <-.
      destruct (func_attempt Hf) as [ev [Hev Ht]].
      exists [ev]. split; [exact Ht | repeat constructor; exact Hev].
    + destruct (func_attempt Hf) as [ev [Hev Ht]].
      destruct (retryable e).
      * unfold bind in Hrun.
        destruct (init (printed Print419 e w1)) as [[[[]|e'] w2]|] eqn:Hi;
          [| |discriminate].
        -- destruct (init_event Hi) as [body Hb].
           destruct (IH _ _ _ Hrun) as [t [Ht' Hall]].
           exists ([ev; EvPrint Print419 e; EvInit body] ++ t). split.
           ++ rewrite Ht', Hb. unfold printed; simpl. rewrite Ht.
              rewrite <- !app_assoc. reflexivity.
           ++ apply Forall_app. split; [|exact Hall].
              repeat constructor; [exact Hev | apply others; reflexivity
                                   | apply others; reflexivity].
        -- injection Hrun as _ <-.
           destruct (init_event Hi) as [body Hb].
           exists [ev; EvPrint Print419 e; EvInit body]. split.
           ++ rewrite Hb. unfold printed; simpl. rewrite Ht.
              rewrite <- !app_assoc. reflexivity.
           ++ repeat constructor; [exact Hev | apply others; reflexivity
                                   | apply others; reflexivity].
      * injection Hrun as _ <-.
        exists [ev; EvPrint (site_of e) e]. split.
        -- unfold printed; simpl. rewrite Ht, <- app_assoc. reflexivity.
        -- repeat constructor; [exact Hev | apply others; reflexivity].
Qed.

End RetriedCall.

Lemma retries_of_call {T : Transport} fuel method url data (w w' : world) out :
  _make_request fuel method url data w = Some (out, w') ->
  exists t, trace w' = trace w ++ t /\ Forall (attempt_of method url data) t.
Proof.
  intros Hrun.
  destruct fuel as [|fuel]; [discriminate|].
  rewrite make_request_unfold in Hrun.
  eapply (@wrapper_loop_events _ _ _ _ (attempt_of method url data));
    [| | |exact Hrun].
  - intros w0 o w1 Hb. eexists. split; [|exact (make_request_body_trace _ _ _ _ Hb)].
    eexists. reflexivity.
  - intros w0 o w1 Hi. exact (proj2 (initialize_session_with_run _ _ Hi)).
  - intros [r|body|p e|l m]; simpl; intros Hn; (discriminate || exact I).
Qed.

(** X3: every request a call of [_make_request] makes itself is an
    attempt of that same call: the method, the URL and the data it was
    given, with the headers of that method; only the token may differ
    from one attempt to the next. *)
Theorem retries_repeat_the_call {T : Transport} :
  forall fuel method url data (w w' : world) out,
    _make_request fuel method url data w = Some (out, w') ->
    exists t, trace w' = trace w ++ t /\ Forall (attempt_of method url data) t.
Proof.
  intros fuel method url data w w' out Hrun.
  destruct fuel as [|fuel]; [discriminate|].
  rewrite make_request_unfold in Hrun.
  eapply (@wrapper_loop_events _ _ _ _ (attempt_of method url data));
    [| | |exact Hrun].
  - intros w0 o w1 Hb. eexists. split; [|exact (make_request_body_trace _ _ _ _ Hb)].
    eexists. reflexivity.
  - intros w0 o w1 Hi. exact (proj2 (initialize_session_with_run _ _ Hi)).
  - intros [r|body|p e|l m]; simpl; intros Hn; (discriminate || exact I).
Qed.

Lemma retries_repeat_the_call_witness :
  exists w' t,
    @_make_request scripted 2 (py "post") list_url (Some (JStr (py "payload")))
      (start [Raise error_419; Ret (text_response "home"); Ret (text_response "second")])
    = Some (Ret (Some (text_response "second")), w') /\
    trace w' = [] ++ t /\
    Forall (attempt_of (py "post") list_url (Some (JStr (py "payload")))) t.
Proof.
  eexists.
  destruct (@retries_repeat_the_call scripted 2 (py "post") list_url
              (Some (JStr (py "payload")))
              (start [Raise error_419; Ret (text_response "home");
                      Ret (text_response "second")]) _ _ eq_refl)
    as [t [Ht Hall]].
  exists t. split; [reflexivity|]. split; assumption.
Defined.

(** X4: when the three attempts of a call all fail with an error that
    is retried, [_make_request] returns [None] after exactly three
    attempts and three re-initializations: the session is
    re-initialized after the last failure too, although no attempt
    follows it. *)
Theorem three_retried_failures_give_up {T : Transport} :
  forall fuel method url data (w0 w1 w2 w3 w4 w5 w6 : world) e1 e2 e3,
    _make_request_body method url data w0 = Some (Raise e1, w1) ->
    retryable e1 = true ->
    _initialize_session fuel (printed Print419 e1 w1) = Some (Ret tt, w2) ->
    _make_request_body method url data w2 = Some (Raise e2, w3) ->
    retryable e2 = true ->
    _initialize_session fuel (printed Print419 e2 w3) = Some (Ret tt, w4) ->
    _make_request_body method url data w4 = Some (Raise e3, w5) ->
    retryable e3 = true ->
    _initialize_session fuel (printed Print419 e3 w5) = Some (Ret tt, w6) ->
    _make_request (S fuel) method url data w0 = Some (Ret None, w6) /\
    exists t, trace w6 = trace w0 ++ t /\ attempts t = 3 /\ reinits t = 3.
Proof.
  intros fuel method url data w0 w1 w2 w3 w4 w5 w6 e1 e2 e3
         Hb1 He1 Hi1 Hb2 He2 Hi2 Hb3 He3 Hi3.
  split.
  - rewrite make_request_unfold.
    rewrite wrapper_loop_step, Hb1, He1. unfold bind at 1. rewrite Hi1.
    rewrite wrapper_loop_step, Hb2, He2. unfold bind at 1. rewrite Hi2.
    rewrite wrapper_loop_step, Hb3, He3. unfold bind at 1. rewrite Hi3.
    reflexivity.
  - pose proof (make_request_body_trace _ _ _ _ Hb1) as Ht1.
    pose proof (make_request_body_trace _ _ _ _ Hb2) as Ht2.
    pose proof (make_request_body_trace _ _ _ _ Hb3) as Ht3.
    destruct (initialize_session_with_run _ _ Hi1) as [_ [b1 Hs1]].
    destruct (initialize_session_with_run _ _ Hi2) as [_ [b2 Hs2]].
    destruct (initialize_session_with_run _ _ Hi3) as [_ [b3 Hs3]].
    exists [EvRequest (request_of method url data (xsrf_token w0));
            EvPrint Print419 e1; EvInit b1;
            EvRequest (request_of method url data (xsrf_token w2));
            EvPrint Print419 e2; EvInit b2;
            EvRequest (request_of method url data (xsrf_token w4));
            EvPrint Print419 e3; EvInit b3].
    split; [|split; reflexivity].
    rewrite Hs3. unfold printed at 1; cbn [trace with_trace]. rewrite Ht3.
    rewrite Hs2. unfold printed at 1; cbn [trace with_trace]. rewrite Ht2.
    rewrite Hs1. unfold printed at 1; cbn [trace with_trace]. rewrite Ht1.
    rewrite <- !app_assoc. reflexivity.
Qed.

Lemma three_retried_failures_give_up_witness :
  exists w6,
    @_make_request scripted 2 (py "post") list_url None
      (start [Raise error_419; Ret (text_response "home");
              Raise error_419; Ret (text_response "home");
              Raise error_419; Ret (text_response "home");
              Ret (text_response "never asked")])
    = Some (Ret None, w6) /\
    srv w6 = [Ret (text_response "never asked")] /\
    exists t, trace w6 = [] ++ t /\ attempts t = 3 /\ reinits t = 3.
Proof.
  eexists.
  edestruct (@three_retried_failures_give_up scripted 1 (py "post") list_url None
               (start [Raise error_419; Ret (text_response "home");
                       Raise error_419; Ret (text_response "home");
                       Raise error_419; Ret (text_response "home");
                       Ret (text_response "never asked")]))
    as [Hrun Htrace];
    [vm_compute; reflexivity ..|].
  split; [exact Hrun|]. split; [reflexivity | exact Htrace].
Defined.

(** ** [_initialize_session] and the construction of a client *)



(** X6: constructing a client never raises.  Its first request is a
    GET of the base URL without a token.  If that request succeeds the
    client holds the token of the cookies; if it fails with an error
    that is not retried the client is left without a token, and the
    construction ends normally all the same. *)
Theorem new_client_bootstrap {T : Transport} :
  forall fuel (s s' : server),
    let r := request_of (py "get") base_url None None in
    (forall out w, new_client fuel s = Some (out, w) -> out = Ret tt) /\
    (forall resp,
        send r s = (Ret resp, s') ->
        new_client (S fuel) s =
        Some (Ret tt,
              {| srv := s'; xsrf_token := Some (cookie_token s');
                 trace := [EvInit [EvRequest r; EvLog INFO MsgSessionReady]] |})) /\
    (forall e,
        send r s = (Raise e, s') ->
        retryable e = false ->
        new_client (S fuel) s =
        Some (Ret tt,
              {| srv := s'; xsrf_token := None;
                 trace := [EvInit [EvRequest r; EvPrint (site_of e) e;
                                   EvLog INFO MsgSessionReady]] |})).
Proof.
  intros fuel s s' r. split; [|split].
  - intros out w Hnew.
    exact (proj1 (initialize_session_with_run _ _ Hnew)).
  - intros resp Hsend.
    unfold new_client, _initialize_session, _initialize_session_with, as_init,
      try_except, bind.
    erewrite make_request_returns.
    2:{ rewrite make_request_body_run. cbv zeta. cbn [srv xsrf_token with_trace].
        fold r. rewrite Hsend. reflexivity. }
    reflexivity.
  - intros e Hsend He.
    unfold new_client, _initialize_session, _initialize_session_with, as_init,
      try_except, bind.
    erewrite make_request_abandons.
    2:{ rewrite make_request_body_run. cbv zeta. cbn [srv xsrf_token with_trace].
        fold r. rewrite Hsend. reflexivity. }
    2:{ exact He. }
    reflexivity.
Qed.

Lemma new_client_bootstrap_witness :
  exists w,
    @new_client scripted 1 [Raise (RequestError (py "timed out"))] = Some (Ret tt, w) /\
    xsrf_token w = None.
Proof.
  eexists.
  split;
    [exact (proj2 (proj2 (@new_client_bootstrap scripted 0
                            [Raise (RequestError (py "timed out"))] []))
                  (RequestError (py "timed out")) eq_refl eq_refl)
    | reflexivity].
Defined.

(** ** [_is_premium_email]: bounds and the parts it counts *)

Lemma is_premium_email_negative email num :
  (num < 0)%Z -> _is_premium_email email num = false.
Proof.
  intros Hneg. unfold _is_premium_email. rewrite all_parts_length.
  apply Z.leb_gt. lia.
Qed.

(** X7: [_is_premium_email] at its bounds.  Below zero nothing is
    premium; at zero only a string without any ["."] or ["+"] is, so no
    address with a dotted domain; and what is premium for a bound stays
    premium for every larger one. *)
Theorem is_premium_email_bounds :
  (forall email num, (num < 0)%Z -> _is_premium_email email num = false) /\
  (forall email, _is_premium_email email 0 = true <-> separators email = 0) /\
  (forall email num num',
      (num <= num')%Z ->
      _is_premium_email email num = true -> _is_premium_email email num' = true).
Proof.
  split; [exact is_premium_email_negative|]. split.
  - intros email. unfold _is_premium_email. rewrite all_parts_length, Z.leb_le. lia.
  - intros email num num' Hle. unfold _is_premium_email.
    rewrite !Z.leb_le. lia.
Qed.

Lemma is_premium_email_bounds_witness :
  _is_premium_email (py "a.b@gmail.com") (-1) = false /\
  _is_premium_email (py "a.b@gmail.com") 5 = true.
Proof.
  split.
  - apply (proj1 is_premium_email_bounds). lia.
  - apply (proj2 (proj2 is_premium_email_bounds) _ 2%Z 5%Z); [lia | reflexivity].
Defined.

Lemma split_char_concat c : forall s cur,
  concat (split_from [c] 0 None cur s)
  = rev cur ++ filter (fun x => negb (N.eqb c x)) s.
Proof.
  induction s as [|x s IH]; intros cur.
  - reflexivity.
  - rewrite split_char_cons. cbn [filter].
    destruct (N.eqb c x); cbn [negb concat].
    + rewrite IH. reflexivity.
    + rewrite IH. simpl. rewrite <- app_assoc. reflexivity.
Qed.

(** The pieces of a split keep whatever holds of every character. *)
Lemma split_char_keeps (P : pychar -> Prop) c : forall s cur,
  Forall P cur -> Forall P s ->
  Forall (Forall P) (split_from [c] 0 None cur s).
Proof.
  induction s as [|x s IH]; intros cur Hcur Hs.
  - constructor; [|constructor]. apply Forall_rev. exact Hcur.
  - inversion Hs as [|? ? Hx Hs']; subst.
    rewrite split_char_cons. destruct (N.eqb c x).
    + constructor; [apply Forall_rev; exact Hcur|]. apply IH; [constructor|exact Hs'].
    + apply IH; [constructor; assumption | exact Hs'].
Qed.

(** No piece of a split contains the separator. *)
Lemma split_char_free c : forall s cur,
  Forall (fun x => N.eqb c x = false) cur ->
  Forall (Forall (fun x => N.eqb c x = false)) (split_from [c] 0 None cur s).
Proof.
  induction s as [|x s IH]; intros cur Hcur.
  - constructor; [|constructor]. apply Forall_rev. exact Hcur.
  - rewrite split_char_cons. destruct (N.eqb c x) eqn:E.
    + constructor; [apply Forall_rev; exact Hcur|]. apply IH. constructor.
    + apply IH. constructor; assumption.
Qed.

Lemma concat_concat_map {A B} (f : A -> list (list B)) : forall l,
  concat (concat (map f l)) = concat (map (fun x => concat (f x)) l).
Proof.
  induction l as [|x l IH]; [reflexivity|].
  simpl. rewrite concat_app, IH. reflexivity.
Qed.

Lemma filter_filter_neg c d : forall s : pystr,
  filter (fun x => negb (N.eqb d x)) (filter (fun x => negb (N.eqb c x)) s)
  = filter (fun x => negb (N.eqb x c || N.eqb x d)) s.
Proof.
  induction s as [|x s IH]; [reflexivity|].
  cbn [filter]. rewrite (N.eqb_sym x c), (N.eqb_sym x d).
  destruct (N.eqb c x); cbn [negb orb filter].
  - destruct (N.eqb d x); exact IH.
  - destruct (N.eqb d x); cbn [negb]; [exact IH | rewrite IH; reflexivity].
Qed.

Lemma Forall_Forall_and {A} (P Q : A -> Prop) : forall l : list (list A),
  Forall (Forall P) l -> Forall (Forall Q) l ->
  Forall (Forall (fun x => P x /\ Q x)) l.
Proof.
  induction l as [|p ps IH]; intros HP HQ; [constructor|].
  inversion HP as [|? ? Hp HP']; inversion HQ as [|? ? Hq HQ']; subst.
  constructor; [|apply IH; assumption].
  rewrite Forall_forall in *. intros x Hx. split; auto.
Qed.

(** X8: the parts [_is_premium_email] counts.  None of them contains a
    ["."] or a ["+"], there is always at least one, and put end to end
    they are the address with its ["."] and ["+"] characters removed:
    the split loses nothing else. *)
Theorem all_parts_are_separator_free :
  forall email,
    all_parts email <> [] /\
    Forall (Forall (fun x => is_sep x = false)) (all_parts email) /\
    concat (all_parts email) = filter (fun x => negb (is_sep x)) email.
Proof.
  intros email. split; [|split].
  - intros Hnil. pose proof (all_parts_length email) as Hlen.
    rewrite Hnil in Hlen. discriminate.
  - unfold all_parts, split. change (py ".") with [46%N]. change (py "+") with [43%N].
    assert (Hdot : Forall (Forall (fun x => N.eqb 46 x = false))
                          (split_from [46%N] 0 None [] email))
      by (apply split_char_free; constructor).
    induction Hdot as [|q qs Hq _ IH]; [constructor|].
    cbn [map concat]. apply Forall_app. split; [|exact IH].
    assert (Hboth : Forall (Forall (fun x => N.eqb 46 x = false /\ N.eqb 43 x = false))
                           (split_from [43%N] 0 None [] q)).
    { pose proof (@split_char_keeps (fun x => N.eqb 46 x = false) 43%N q []
                    (Forall_nil _) Hq) as H46.
      pose proof (@split_char_free 43%N q [] (Forall_nil _)) as H43.
      exact (Forall_Forall_and H46 H43). }
    eapply Forall_impl; [|exact Hboth].
    intros p Hp. eapply Forall_impl; [|exact Hp].
    intros x [H46 H43]. unfold is_sep.
    rewrite (N.eqb_sym x 46), (N.eqb_sym x 43), H46, H43. reflexivity.
  - unfold all_parts, split. change (py ".") with [46%N]. change (py "+") with [43%N].
    cbv zeta.
    rewrite (@concat_concat_map pystr pychar (fun s => split_from [43%N] 0 None [] s)).
    rewrite (map_ext _ (filter (fun x => negb (N.eqb 43 x))))
      by (intros q; rewrite split_char_concat; reflexivity).
    rewrite concat_filter_map, split_char_concat. cbn [rev app].
    exact (filter_filter_neg 46%N 43%N email).
Qed.

(** ** [generate_email] and [generate_premium_email] *)

(** X9: what [generate_email] makes of a response.  From an object it
    returns the first element of its [email] list, and [None] when the
    key is missing; an empty list raises [IndexError], a body that is
    not JSON raises [ValueError], and a JSON value that is not an
    object raises [AttributeError].  These exceptions are raised after
    [_make_request] has returned, so they reach the caller. *)
Theorem generate_email_by_response {T : Transport} :
  forall fuel email_types (w w' : world) r,
    _make_request fuel (py "post") generate_url (Some (generate_data email_types)) w
      = Some (Ret (Some r), w') ->
    (forall kv,
        resp_json r = Some (JDict kv) ->
        (forall a rest,
            lookup (py "email") kv = Some (JList (a :: rest)) ->
            generate_email fuel email_types w = Some (Ret a, w')) /\
        (lookup (py "email") kv = None ->
         generate_email fuel email_types w = Some (Ret JNull, w')) /\
        (lookup (py "email") kv = Some (JList []) ->
         generate_email fuel email_types w = Some (Raise IndexError, w'))) /\
    (resp_json r = None ->
     generate_email fuel email_types w = Some (Raise ValueError, w')) /\
    (forall l,
        resp_json r = Some (JList l) ->
        generate_email fuel email_types w = Some (Raise AttributeError, w')).
Proof.
  intros fuel email_types w w' r Hreq.
  assert (Hrun : generate_email fuel email_types w =
                 Some (res_bind (match resp_json r with
                                 | Some j => Ret j
                                 | None => Raise ValueError
                                 end)
                         (fun j => res_bind (dict_get j (py "email") (JList [JNull]))
                                            getitem0), w')).
  { unfold generate_email, bind. fold generate_url.
    change (JDict [(py "email", JList (map JStr email_types))])
      with (generate_data email_types).
    rewrite Hreq. reflexivity. }
  rewrite Hrun. split; [|split].
  - intros kv ->. cbn [res_bind dict_get]. split; [|split].
    + intros a rest ->. reflexivity.
    + intros ->. reflexivity.
    + intros ->. reflexivity.
  - intros ->. reflexivity.
  - intros l ->. reflexivity.
Qed.

Lemma generate_email_by_response_witness :
  exists w',
    @generate_email scripted 1 [py "dotGmail"]
      (start [Ret (address_response [])]) = Some (Raise IndexError, w').
Proof.
  eexists.
  edestruct (@generate_email_by_response scripted 1 [py "dotGmail"]
               (start [Ret (address_response [])])) as [Hobject _];
    [vm_compute; reflexivity|].
  apply (Hobject [(py "email", JList [])]); reflexivity.
Defined.

Lemma premium_loop_result {T : Transport} fuel num email_type :
  forall n attempt (w w' : world) v,
    premium_loop fuel n attempt num email_type w = Some (Ret (Some v), w') ->
    exists s, v = JStr s /\ s <> [] /\ _is_premium_email s num = true.
Proof.
  induction n as [|n IH]; intros attempt w w' v Hrun; [discriminate|].
  cbn [premium_loop] in Hrun. unfold bind at 1 in Hrun.
  destruct (generate_email fuel email_type w) as [[[email|e] w1]|];
    [| discriminate | discriminate].
  unfold bind at 1 in Hrun.
  destruct (truthy email) eqn:Htruthy.
  - unfold lift in Hrun.
    destruct email as [| | |s| |]; cbn [is_premium_value] in Hrun; try discriminate.
    destruct (_is_premium_email s num) eqn:Hprem.
    + unfold bind, log, emit, ret in Hrun. injection Hrun as <- _.
      exists s. split; [reflexivity|]. split; [|exact Hprem].
      intros ->. discriminate.
    + unfold bind at 1, log, emit in Hrun. exact (IH _ _ _ _ Hrun).
  - unfold ret at 1 in Hrun. unfold bind at 1, log, emit in Hrun.
    exact (IH _ _ _ _ Hrun).
Qed.

(** X10: what [generate_premium_email] returns is [None] or a
    non-empty string that passes [_is_premium_email] for the bound it
    was given: an address that fails the test is never returned.  With
    a negative bound the result can only be [None]. *)
Theorem generate_premium_email_result {T : Transport} :
  forall fuel max_attempts num email_type (w w' : world) v,
    generate_premium_email fuel max_attempts num email_type w = Some (Ret v, w') ->
    (v = JNull \/
     exists s, v = JStr s /\ s <> [] /\ _is_premium_email s num = true) /\
    ((num < 0)%Z -> v = JNull).
Proof.
  intros fuel max_attempts num email_type w w' v Hrun.
  assert (Hres : v = JNull \/
                 exists s, v = JStr s /\ s <> [] /\ _is_premium_email s num = true).
  { unfold generate_premium_email, bind at 1 in Hrun.
    destruct (premium_loop fuel (Z.to_nat max_attempts) 1 num email_type w)
      as [[[[found|]|e] w1]|] eqn:Hloop; try discriminate.
    - injection Hrun as <- _. right. exact (premium_loop_result _ _ _ _ _ _ Hloop).
    - unfold bind, log, emit, ret in Hrun. injection Hrun as <- _. left. reflexivity. }
  split; [exact Hres|].
  intros Hneg. destruct Hres as [-> | [s [_ [_ Hprem]]]]; [reflexivity|].
  rewrite (is_premium_email_negative s Hneg) in Hprem. discriminate.
Qed.

Lemma generate_premium_email_result_witness :
  exists w',
    @generate_premium_email scripted 1 2 (-1) [py "dotGmail"]
      (start [Ret (address_response [JStr (py "ab@gmail.com")]);
              Ret (address_response [JStr (py "cd@gmail.com")])])
    = Some (Ret JNull, w').
Proof.
  assert (Hrun : exists v w',
             @generate_premium_email scripted 1 2 (-1) [py "dotGmail"]
               (start [Ret (address_response [JStr (py "ab@gmail.com")]);
                       Ret (address_response [JStr (py "cd@gmail.com")])])
             = Some (Ret v, w'))
    by (eexists; eexists; vm_compute; reflexivity).
  destruct Hrun as [v [w' Hrun]].
  exists w'. rewrite Hrun.
  rewrite (proj2 (@generate_premium_email_result scripted _ _ _ _ _ _ _ Hrun)
                 ltac:(lia)).
  reflexivity.
Defined.

Lemma generate_email_trace {T : Transport} fuel email_types (w w' : world) out :
  generate_email fuel email_types w = Some (out, w') ->
  exists t, trace w' = trace w ++ t /\ attempts t <= 3 /\
            Forall (attempt_of (py "post") generate_url
                               (Some (generate_data email_types))) t.
Proof.
  unfold generate_email, bind. fold generate_url.
  change (JDict [(py "email", JList (map JStr email_types))])
    with (generate_data email_types).
  destruct (_make_request fuel (py "post") generate_url
              (Some (generate_data email_types)) w) as [[o w1]|] eqn:Hreq;
    [|discriminate].
  destruct (make_request_run _ _ _ _ _ Hreq) as [Hout [t [Ht [Ha _]]]].
  destruct (retries_of_call _ _ _ _ _ Hreq) as [t' [Ht' Hall]].
  rewrite Ht in Ht'. apply app_inv_head in Ht'. subst t'.
  assert (Hw : w' = w1 -> exists t0, trace w' = trace w ++ t0 /\ attempts t0 <= 3 /\
                 Forall (attempt_of (py "post") generate_url
                                    (Some (generate_data email_types))) t0)
    by (intros ->; exists t; auto).
  destruct Hout as [-> | [r [w0 [-> _]]]].
  - unfold ret. intros Hrun. injection Hrun as _ <-. apply Hw. reflexivity.
  - unfold lift. intros Hrun. injection Hrun as _ <-. apply Hw. reflexivity.
Qed.

Lemma premium_loop_trace {T : Transport} fuel num email_type :
  forall n attempt (w w' : world) out,
    premium_loop fuel n attempt num email_type w = Some (out, w') ->
    exists t, trace w' = trace w ++ t /\ attempts t <= 3 * n /\
              Forall (attempt_of (py "post") generate_url
                                 (Some (generate_data email_type))) t.
Proof.
  induction n as [|n IH]; intros attempt w w' out Hrun.
  - injection Hrun as _ <-. exists []. rewrite app_nil_r.
    split; [reflexivity|]. split; [apply Nat.le_0_l | constructor].
  - cbn [premium_loop] in Hrun. unfold bind at 1 in Hrun.
    destruct (generate_email fuel email_type w) as [[[email|e] w1]|] eqn:Hgen;
      [| |discriminate].
    + destruct (generate_email_trace _ _ _ Hgen) as [t1 [Ht1 [Ha1 Hall1]]].
      assert (Hnext : forall w2 o,
                 premium_loop fuel n (attempt + 1) num email_type
                   (logged DEBUG (MsgPremiumAttempt attempt) w1) = Some (o, w2) ->
                 exists t, trace w2 = trace w ++ t /\ attempts t <= 3 * S n /\
                           Forall (attempt_of (py "post") generate_url
                                              (Some (generate_data email_type))) t).
      { intros w2 o Hloop. destruct (IH _ _ _ _ Hloop) as [t2 [Ht2 [Ha2 Hall2]]].
        exists (t1 ++ [EvLog DEBUG (MsgPremiumAttempt attempt)] ++ t2).
        split; [|split].
        - rewrite Ht2. unfold logged; simpl. rewrite Ht1, <- !app_assoc. reflexivity.
        - rewrite !attempts_app.
          change (attempts [EvLog DEBUG (MsgPremiumAttempt attempt)]) with 0. lia.
        - apply Forall_app. split; [exact Hall1|].
          constructor; [exact I | exact Hall2]. }
      unfold bind at 1 in Hrun.
      destruct (truthy email).
      * unfold lift in Hrun.
        destruct (is_premium_value email num) as [[|]|e]; cbn in Hrun.
        -- unfold bind, log, emit, ret in Hrun. injection Hrun as _ <-.
           exists (t1 ++ [EvLog INFO (MsgPremiumFound email)]).
           split; [|split].
           ++ simpl. rewrite Ht1, <- app_assoc. reflexivity.
           ++ rewrite attempts_app.
              change (attempts [EvLog INFO (MsgPremiumFound email)]) with 0. lia.
           ++ apply Forall_app. split; [exact Hall1 | repeat constructor].
        -- exact (Hnext _ _ Hrun).
        -- injection Hrun as _ <-. exists t1.
           split; [exact Ht1|]. split; [lia | exact Hall1].
      * unfold ret at 1 in Hrun. exact (Hnext _ _ Hrun).
    + injection Hrun as _ <-.
      destruct (generate_email_trace _ _ _ Hgen) as [t1 [Ht1 [Ha1 Hall1]]].
      exists t1. split; [exact Ht1|]. split; [lia | exact Hall1].
Qed.

(** X11: a call of [generate_premium_email] makes at most three
    requests of its own per allowed attempt, each of them a POST of the
    address types to [/generate-email]; with [max_attempts] zero or
    negative it makes none. *)
Theorem generate_premium_email_requests {T : Transport} :
  forall fuel max_attempts num email_type (w w' : world) out,
    generate_premium_email fuel max_attempts num email_type w = Some (out, w') ->
    exists t,
      trace w' = trace w ++ t /\
      attempts t <= 3 * Z.to_nat max_attempts /\
      Forall (attempt_of (py "post") generate_url (Some (generate_data email_type))) t /\
      ((max_attempts <= 0)%Z -> attempts t = 0).
Proof.
  intros fuel max_attempts num email_type w w' out Hrun.
  unfold generate_premium_email, bind at 1 in Hrun.
  destruct (premium_loop fuel (Z.to_nat max_attempts) 1 num email_type w)
    as [[[[found|]|e] w1]|] eqn:Hloop; try discriminate;
    destruct (premium_loop_trace _ _ _ _ _ _ Hloop) as [t [Ht [Ha Hall]]].
  - injection Hrun as _ <-. exists t.
    split; [exact Ht|]. split; [exact Ha|]. split; [exact Hall|]. lia.
  - unfold bind, log, emit, ret in Hrun. injection Hrun as _ <-.
    exists (t ++ [EvLog WARNING (MsgPremiumExhausted max_attempts)]).
    assert (Hcount : attempts (t ++ [EvLog WARNING (MsgPremiumExhausted max_attempts)])
                     = attempts t)
      by (rewrite attempts_app;
          change (attempts [EvLog WARNING (MsgPremiumExhausted max_attempts)]) with 0;
          lia).
    split; [simpl; rewrite Ht, <- app_assoc; reflexivity|].
    split; [lia|]. split; [|lia].
    apply Forall_app. split; [exact Hall | repeat constructor].
  - injection Hrun as _ <-. exists t.
    split; [exact Ht|]. split; [exact Ha|]. split; [exact Hall|]. lia.
Qed.

Lemma generate_premium_email_requests_witness :
  exists w' t,
    @generate_premium_email scripted 1 (-3) 2 [py "dotGmail"]
      (start [Ret (address_response [JStr (py "ab@gmail.com")])])
    = Some (Ret JNull, w') /\
    trace w' = [] ++ t /\ attempts t = 0.
Proof.
  eexists.
  destruct (@generate_premium_email_requests scripted 1 (-3) 2 [py "dotGmail"]
              (start [Ret (address_response [JStr (py "ab@gmail.com")])]) _ _ eq_refl)
    as [t [Ht [_ [_ Hnone]]]].
  exists t. split; [reflexivity|]. split; [exact Ht | apply Hnone; lia].
Defined.

(** X12: [generate_premium_email] stops at the first address that is
    premium.  When the first address generated is a non-empty string
    that passes the test and at least one attempt is allowed, that
    address is returned after this single call of [generate_email],
    with the success logged. *)
Theorem generate_premium_email_first_premium {T : Transport} :
  forall fuel max_attempts num email_type (w w1 : world) s,
    (0 < max_attempts)%Z ->
    generate_email fuel email_type w = Some (Ret (JStr s), w1) ->
    s <> [] ->
    _is_premium_email s num = true ->
    generate_premium_email fuel max_attempts num email_type w
    = Some (Ret (JStr s), logged INFO (MsgPremiumFound (JStr s)) w1).
Proof.
  intros fuel max_attempts num email_type w w1 s Hpos Hgen Hs Hprem.
  unfold generate_premium_email.
  destruct (Z.to_nat max_attempts) as [|n] eqn:Hn; [lia|].
  cbn [premium_loop]. unfold bind at 1. unfold bind at 1. rewrite Hgen.
  destruct s as [|c s]; [contradiction|].
  cbn [truthy]. unfold bind at 1, lift. cbn [is_premium_value]. rewrite Hprem.
  reflexivity.
Qed.

Lemma generate_premium_email_first_premium_witness :
  exists w',
    @generate_premium_email scripted 1 20 2 [py "dotGmail"; py "googleMail"]
      (start [Ret (address_response [JStr (py "a.b@gmail.com")])])
    = Some (Ret (JStr (py "a.b@gmail.com")), w').
Proof.
  eexists.
  eapply (@generate_premium_email_first_premium scripted 1 20 2);
    [lia | vm_compute; reflexivity | discriminate | reflexivity].
Defined.

(** ** [get_message_list] and [get_new_message] *)

(** X13: the responses [get_message_list] cannot read raise out of it,
    after [_make_request] has returned: a body that is not JSON raises
    [ValueError], a JSON array instead of an object [AttributeError],
    and a [messageData] that is [null] raises [TypeError]; only a
    missing [messageData] counts as an empty list. *)
Theorem get_message_list_unreadable_response {T : Transport} :
  forall fuel email (w w' : world) r,
    _make_request fuel (py "post") list_url (Some (JDict [(py "email", JStr email)])) w
      = Some (Ret (Some r), w') ->
    (resp_json r = None ->
     get_message_list fuel email w = Some (Raise ValueError, w')) /\
    (forall l,
        resp_json r = Some (JList l) ->
        get_message_list fuel email w = Some (Raise AttributeError, w')) /\
    (forall kv,
        resp_json r = Some (JDict kv) ->
        (lookup (py "messageData") kv = Some JNull ->
         get_message_list fuel email w = Some (Raise TypeError, w')) /\
        (lookup (py "messageData") kv = None ->
         get_message_list fuel email w = Some (Ret [], w'))).
Proof.
  intros fuel email w w' r Hreq.
  assert (Hrun : get_message_list fuel email w =
                 Some (res_bind (match resp_json r with
                                 | Some j => Ret j
                                 | None => Raise ValueError
                                 end)
                         (fun j => res_bind (dict_get j (py "messageData") (JList []))
                         (fun v => res_bind (iterate v) filter_from)), w')).
  { unfold get_message_list, bind. fold list_url. rewrite Hreq. reflexivity. }
  rewrite Hrun. split; [|split].
  - intros ->. reflexivity.
  - intros l ->. reflexivity.
  - intros kv ->. cbn [res_bind dict_get]. split; intros ->; reflexivity.
Qed.

Lemma get_message_list_unreadable_response_witness :
  exists w',
    @get_message_list scripted 1 (py "x@gmail.com")
      (start [Ret (json_response (JDict [(py "messageData", JNull)]))])
    = Some (Raise TypeError, w').
Proof.
  eexists.
  edestruct (@get_message_list_unreadable_response scripted 1 (py "x@gmail.com")
               (start [Ret (json_response (JDict [(py "messageData", JNull)]))]))
    as [_ [_ Hobject]]; [vm_compute; reflexivity|].
  apply (proj1 (Hobject [(py "messageData", JNull)] eq_refl)). reflexivity.
Defined.







(** ** [_parse_email_content] and [get_email_content] *)

Lemma parse_email_content_shape {H : HtmlParser} content d :
  _parse_email_content content = Ret d ->
  exists sender subject time,
    d = content_record sender subject time (body_of content).
Proof.
  unfold _parse_email_content.
  destruct (label_text _ 0) as [sender|]; [|discriminate].
  destruct (label_text _ 1) as [subject|]; [|discriminate].
  destruct (label_text _ 2) as [time|]; [|discriminate].
  cbn [res_bind]. intros Hd. injection Hd as <-.
  exists sender, subject, time. reflexivity.
Qed.

(** X15: [_parse_email_content] returns a record exactly when the
    document has an element with id ["subject-header"] with at least
    three [<b>] elements under it and the text after each of the first
    three can be read; the record then has the four keys [from],
    [subject], [time] and [body], the first three holding those texts
    in that order, and further [<b>] elements are ignored. *)
Theorem parse_email_content_succeeds_iff {H : HtmlParser} :
  forall content d,
    _parse_email_content content = Ret d <->
    exists h b0 b1 b2 rest sender subject time,
      soup_find_id content (py "subject-header") = Some h /\
      find_all h (py "b") = b0 :: b1 :: b2 :: rest /\
      next_sibling_strip b0 = Ret sender /\
      next_sibling_strip b1 = Ret subject /\
      next_sibling_strip b2 = Ret time /\
      d = content_record sender subject time (body_of content).
Proof.
  intros content d. unfold _parse_email_content, label_text. split.
  - destruct (soup_find_id content (py "subject-header")) as [h|]; [|discriminate].
    destruct (find_all h (py "b")) as [|b0 [|b1 [|b2 rest]]] eqn:Hall;
      cbn [nth_error].
    + discriminate.
    + destruct (next_sibling_strip b0); discriminate.
    + destruct (next_sibling_strip b0); [|discriminate].
      destruct (next_sibling_strip b1); discriminate.
    + destruct (next_sibling_strip b0) as [sender|] eqn:Hs0; [|discriminate].
      destruct (next_sibling_strip b1) as [subject|] eqn:Hs1; [|discriminate].
      destruct (next_sibling_strip b2) as [time|] eqn:Hs2; [|discriminate].
      cbn [res_bind]. intros Hd. injection Hd as <-.
      exists h, b0, b1, b2, rest, sender, subject, time.
      repeat split; assumption.
  - intros [h [b0 [b1 [b2 [rest [sender [subject [time
             [-> [-> [Hs0 [Hs1 [Hs2 ->]]]]]]]]]]]]].
    cbn [nth_error]. rewrite Hs0, Hs1, Hs2. reflexivity.
Qed.

Lemma parse_email_content_succeeds_iff_witness :
  @_parse_email_content (toy_parser [py " Ann "; py "Greetings"; py "Just Now"; py "extra"])
    (py "<div id=subject-header></div>")
  = Ret (content_record (py "Ann") (py "Greetings") (py "Just Now") []).
Proof.
  apply (proj2 (@parse_email_content_succeeds_iff
                  (toy_parser [py " Ann "; py "Greetings"; py "Just Now"; py "extra"])
                  (py "<div id=subject-header></div>") _)).
  exists (Header [py " Ann "; py "Greetings"; py "Just Now"; py "extra"]),
         (Bold (py " Ann ")), (Bold (py "Greetings")), (Bold (py "Just Now")),
         [Bold (py "extra")], (py "Ann"), (py "Greetings"), (py "Just Now").
  repeat split.
Defined.

(** X16: a value that [get_email_content] returns is the empty record
    only when the request gave no response; from a response it is a
    record with the four keys, whose body is the one of the response
    text.  An empty record therefore always means a failed request,
    never a document that could not be read. *)
Theorem get_email_content_result {T : Transport} {H : HtmlParser} :
  forall fuel email message_id (w w' : world) v,
    get_email_content fuel email message_id w = Some (Ret v, w') ->
    (v = JDict [] /\
     _make_request fuel (py "post") list_url
       (Some (JDict [(py "email", JStr email); (py "messageID", JStr message_id)])) w
       = Some (Ret None, w')) \/
    (exists r sender subject time,
        _make_request fuel (py "post") list_url
          (Some (JDict [(py "email", JStr email); (py "messageID", JStr message_id)])) w
          = Some (Ret (Some r), w') /\
        v = content_record sender subject time (body_of (resp_text r))).
Proof.
  intros fuel email message_id w w' v.
  unfold get_email_content, bind. fold list_url.
  destruct (_make_request fuel (py "post") list_url _ w) as [[[[r|]|e] w1]|];
    try discriminate.
  - unfold lift. intros Hrun. injection Hrun as Hparse <-.
    right.
    destruct (parse_email_content_shape _ Hparse) as [sender [subject [time ->]]].
    exists r, sender, subject, time. split; reflexivity.
  - unfold ret. intros Hrun. injection Hrun as <- <-. left. split; reflexivity.
Qed.

Lemma get_email_content_result_witness :
  exists w',
    @get_email_content scripted (toy_parser []) 1 (py "x@gmail.com") (py "id")
      (start [Raise error_500]) = Some (Ret (JDict []), w') /\
    @_make_request scripted 1 (py "post") list_url
      (Some (JDict [(py "email", JStr (py "x@gmail.com"));
                    (py "messageID", JStr (py "id"))]))
      (start [Raise error_500]) = Some (Ret None, w').
Proof.
  assert (Hrun : exists w',
             @get_email_content scripted (toy_parser []) 1 (py "x@gmail.com") (py "id")
               (start [Raise error_500]) = Some (Ret (JDict []), w'))
    by (eexists; vm_compute; reflexivity).
  destruct Hrun as [w' Hrun]. exists w'. split; [exact Hrun|].
  destruct (@get_email_content_result scripted (toy_parser []) _ _ _ _ _ _ Hrun)
    as [[_ Hreq] | [r [sender [subject [time [_ Hv]]]]]];
    [exact Hreq | discriminate Hv].
Defined.

(** X17: [get_message_list] and [get_email_content] make at most three
    requests of their own, all of them POSTs to [/message-list] that
    carry the address, and for [get_email_content] the message id as
    well; reading the response makes no request. *)
Theorem message_list_requests {T : Transport} {H : HtmlParser} :
  (forall fuel email (w w' : world) out,
      get_message_list fuel email w = Some (out, w') ->
      exists t, trace w' = trace w ++ t /\ attempts t <= 3 /\
                Forall (attempt_of (py "post") list_url
                                   (Some (JDict [(py "email", JStr email)]))) t) /\
  (forall fuel email message_id (w w' : world) out,
      get_email_content fuel email message_id w = Some (out, w') ->
      exists t, trace w' = trace w ++ t /\ attempts t <= 3 /\
                Forall (attempt_of (py "post") list_url
                          (Some (JDict [(py "email", JStr email);
                                        (py "messageID", JStr message_id)]))) t).
Proof.
  assert (Hcall : forall fuel data (w w1 : world) o,
             _make_request fuel (py "post") list_url data w = Some (o, w1) ->
             exists t, trace w1 = trace w ++ t /\ attempts t <= 3 /\
                       Forall (attempt_of (py "post") list_url data) t).
  { intros fuel data w w1 o Hreq.
    destruct (make_request_run _ _ _ _ _ Hreq) as [_ [t [Ht [Ha _]]]].
    destruct (retries_of_call _ _ _ _ _ Hreq) as [t' [Ht' Hall]].
    rewrite Ht in Ht'. apply app_inv_head in Ht'. subst t'.
    exists t. auto. }
  split.
  - intros fuel email w w' out. unfold get_message_list, bind. fold list_url.
    destruct (_make_request fuel (py "post") list_url _ w) as [[o w1]|] eqn:Hreq;
      [|discriminate].
    destruct (Hcall _ _ _ _ _ Hreq) as [t Ht].
    destruct o as [[r|]|e]; unfold lift, ret; intros Hrun;
      injection Hrun as _ <-; exists t; exact Ht.
  - intros fuel email message_id w w' out. unfold get_email_content, bind.
    fold list_url.
    destruct (_make_request fuel (py "post") list_url _ w) as [[o w1]|] eqn:Hreq;
      [|discriminate].
    destruct (Hcall _ _ _ _ _ Hreq) as [t Ht].
    destruct o as [[r|]|e]; unfold lift, ret; intros Hrun;
      injection Hrun as _ <-; exists t; exact Ht.
Qed.

Lemma message_list_requests_witness :
  exists w' t,
    @get_message_list scripted 2 (py "x@gmail.com")
      (start [Raise error_419; Ret (text_response "home"); Ret (list_response [])])
    = Some (Ret [], w') /\
    trace w' = [] ++ t /\ attempts t <= 3.
Proof.
  eexists.
  destruct (proj1 (@message_list_requests scripted (toy_parser [])) 2 (py "x@gmail.com")
              (start [Raise error_419; Ret (text_response "home");
                      Ret (list_response [])]) _ _ eq_refl)
    as [t [Ht [Ha _]]].
  exists t. split; [reflexivity|]. split; assumption.
Defined.

(** ** The decorator on any function *)

(** X18: [error_handler] around any function.  With [max_retries] zero
    or negative the function is not called and the result is [None].
    An exception of the function never leaves the wrapper as long as
    the re-initialization itself does not raise: the wrapper returns
    [None] or what a call of the function returned.  But the
    re-initialization runs inside the handler, outside the [try]: an
    exception it raises does leave the wrapper. *)
Theorem error_handler_contains_exceptions {T : Transport} (A : Type)
        (init : M unit) (func : M A) :
  forall max_retries,
    ((max_retries <= 0)%Z ->
     forall w, error_handler max_retries init func w = Some (Ret None, w)) /\
    ((forall w o w1, init w = Some (o, w1) -> o = Ret tt) ->
     forall w out w',
       error_handler max_retries init func w = Some (out, w') ->
       out = Ret None \/
       exists r w0, out = Ret (Some r) /\ func w0 = Some (Ret r, w')) /\
    ((0 < max_retries)%Z ->
     forall w e w1 e' w2,
       func w = Some (Raise e, w1) ->
       retryable e = true ->
       init (printed Print419 e w1) = Some (Raise e', w2) ->
       error_handler max_retries init func w = Some (Raise e', w2)).
Proof.
  intros max_retries. unfold error_handler. split; [|split].
  - intros Hle w. replace (Z.to_nat max_retries) with 0 by lia. reflexivity.
  - intros Hinit. generalize (Z.to_nat max_retries) as n.
    induction n as [|n IH]; intros w out w' Hrun.
    + injection Hrun as <- _. left. reflexivity.
    + rewrite wrapper_loop_step in Hrun.
      destruct (func w) as [[[r|e] w1]|] eqn:Hf; [| |discriminate].
      * injection Hrun as <- <-. right. exists r, w. split; [reflexivity | exact Hf].
      * destruct (retryable e).
        -- unfold bind in Hrun.
           destruct (init (printed Print419 e w1)) as [[oi w2]|] eqn:Hi; [|discriminate].
           rewrite (Hinit _ _ _ Hi) in Hrun. exact (IH _ _ _ Hrun).
        -- injection Hrun as <- _. left. reflexivity.
  - intros Hpos w e w1 e' w2 Hf He Hi.
    destruct (Z.to_nat max_retries) as [|n] eqn:Hn; [lia|].
    rewrite wrapper_loop_step, Hf, He. unfold bind. rewrite Hi. reflexivity.
Qed.

Lemma error_handler_contains_exceptions_witness :
  exists w',
    @error_handler scripted _ 3 (fun w => Some (Raise KeyError, w))
      (_make_request_body (py "post") list_url None)
      (start [Raise error_419; Ret (text_response "second")])
    = Some (Raise KeyError, w').
Proof.
  eexists.
  eapply (proj2 (proj2 (@error_handler_contains_exceptions scripted _
                          (fun w => Some (Raise KeyError, w))
                          (_make_request_body (py "post") list_url None) 3)));
    [lia | vm_compute; reflexivity | reflexivity | reflexivity].
Defined.
